(** * GEO_IGT_PIPELINE: spatial query analysis, map-service comparison and
      pipeline configuration

    A shallow embedding of
    - [3.1_spatial_query_analysis.py] ([analyze_polygonal_overlap],
      [perform_spatial_query]),
    - [3.2_map_service_compar.py] ([compare_with_google_maps]),
    - [main_igt_spatial_pipeline.py] (the configuration merge of
      [main_execution_pipeline] and the [my_config] dictionary of the
      command-line entry point).

    The Python code is a thin client of shapely, geopandas, pandas and
    requests.  Those libraries are not part of the repository; they are
    represented by interfaces (type classes) whose operations the
    repository's functions call, and by small executable instances on which
    the functions can be run.  Python floats are idealised as rationals
    ([Q]); sums and quotients are compared with [==]. *)

From Stdlib Require Import QArith Lqa ZArith String DecimalString List Bool
  Permutation Sorted Lia.
From stdpp Require Import gmap strings.
Import ListNotations.

Local Open Scope string_scope.
Local Open Scope list_scope.

(** ** Python values, exceptions and results *)

Module Py.

(** The exceptions that the modelled code can raise. *)
Inductive Exception :=
| ValueError (msg : string)
| TypeError (msg : string)
| KeyError (key : string)
| UnboundLocalError (var : string)
| ZeroDivisionError
| RequestException (msg : string).

(** A computation returns a value or raises. *)
Inductive Result (A : Type) :=
| Ok (a : A)
| Raise (e : Exception).
Arguments Ok {A} a.
Arguments Raise {A} e.

#[export] Instance result_ret : MRet Result := fun A a => Ok a.
#[export] Instance result_bind : MBind Result := fun A B f m =>
  match m with
  | Ok a => f a
  | Raise e => Raise e
  end.

(** The values a configuration dictionary holds. *)
#[warnings="-register-all"] Inductive Val :=
| VNone
| VBool (b : bool)
| VInt (z : Z)
| VStr (s : string)
| VDict (d : gmap string Val).

(** Truth value testing ([if x:], [x or y]). *)
Definition truthy (v : Val) : bool :=
  match v with
  | VNone => false
  | VBool b => b
  | VInt z => negb (z =? 0)%Z
  | VStr s => negb (String.eqb s "")
  | VDict d => negb (bool_decide (d = ∅))
  end.

(** [x or y]: [x] when it is truthy, otherwise [y]. *)
Definition or_ (x y : Val) : Val := if truthy x then x else y.

(** [d[k]]. *)
Definition getitem (d : gmap string Val) (k : string) : Result Val :=
  match d !! k with
  | Some v => Ok v
  | None => Raise (KeyError k)
  end.

(** [v[k]] where [v] is any value: only dictionaries are subscriptable by
    a string key. *)
Definition subscript (v : Val) (k : string) : Result Val :=
  match v with
  | VDict d => getitem d k
  | _ => Raise (TypeError "object is not subscriptable")
  end.

(** [d.update(other)]: every key of [other] is (re)bound in [d] to the
    value it has in [other]. *)
Definition update (d other : gmap string Val) : gmap string Val := other ∪ d.

(** [a > b] on floats. *)
Definition gt (a b : Q) : bool := negb (Qle_bool a b).

(** True division of floats. *)
Definition truediv (a b : Q) : Result Q :=
  if Qeq_bool b 0 then Raise ZeroDivisionError else Ok (a / b)%Q.

End Py.
Import Py.

(** ** Geometry interfaces (shapely / pyproj) *)

(** What [3.1_spatial_query_analysis.py] uses of a geometry: its [area], the
    three binary predicates, and reprojection between two coordinate
    reference systems. *)
Class Geometry (G CRS : Type) := {
  area : G -> Q;
  intersects : G -> G -> bool;
  within : G -> G -> bool;
  contains : G -> G -> bool;
  transform : CRS -> CRS -> G -> G
}.

(** The relations between the predicates that shapely documents:
    [a.contains(b) == b.within(a)], and a geometry within another one
    intersects it. *)
Record GeometryLaws {G CRS : Type} `{Geometry G CRS} : Prop := {
  contains_within : forall a b : G, contains a b = within b a;
  within_intersects : forall a b : G, within a b = true -> intersects a b = true
}.
Arguments GeometryLaws G CRS {_}.

(** What [3.2_map_service_compar.py] uses of a geometry. *)
Class Overlay (G : Type) := {
  intersection : G -> G -> G;
  union_ : G -> G -> G;
  overlay_area : G -> Q
}.

(** ** GeoDataFrames *)

Section Frames.
Context {G CRS : Type}.

(** A record of a frame: the active geometry and the other columns. *)
Record Feature (A : Type) := {
  geometry : G;
  attributes : A
}.

(** A frame: one CRS for the geometry column, and the rows in index
    order.  Every frame this repository builds carries a CRS
    ([load_indonesian_data] sets one, [create_sample_data] passes one). *)
Record GeoDataFrame (A : Type) := {
  crs : CRS;
  rows : list (Feature A)
}.
End Frames.
Arguments Feature G A : clear implicits.
Arguments GeoDataFrame G CRS A : clear implicits.
Arguments geometry {G A} _.
Arguments attributes {G A} _.
Arguments crs {G CRS A} _.
Arguments rows {G CRS A} _.

(** Columns of the administrative layer that the analysis reads.  The
    frames are typed by their columns: a frame without [province_name] or
    [landuse_type], on which [groupby] would raise [KeyError], is not a
    value of these types. *)
Record Admin := { province_name : string }.

(** Columns of the land-use layer: the category, and the [area_ha]
    attribute that the layer may already carry (as the sample data does). *)
Record LandUse := { landuse_type : string; area_ha : Q }.

(** Columns of the joined frame. *)
Record Joined := {
  j_landuse_type : string;
  j_area_ha : Q;
  j_province_name : string
}.

(** A row of the summary: [province_name], [landuse_type], [area_ha]. *)
Definition SummaryRow : Type := string * string * Q.

Definition row_key (r : SummaryRow) : string * string := fst r.
Definition row_area (r : SummaryRow) : Q := snd r.

(** Two summaries are the same table when the keys agree and the areas are
    equal as numbers. *)
Definition summary_eq (s1 s2 : list SummaryRow) : Prop :=
  Forall2 (fun r1 r2 => row_key r1 = row_key r2 /\ (row_area r1 == row_area r2)%Q) s1 s2.

(** ** pandas: [groupby([k1, k2])[col].sum().reset_index()] *)

Module Pandas.

Definition Key : Type := string * string.

Definition key_eqb (a b : Key) : bool :=
  String.eqb (fst a) (fst b) && String.eqb (snd a) (snd b).

(** Lexicographic order on the pair of group keys. *)
Definition key_leb (a b : Key) : bool :=
  match String.compare (fst a) (fst b) with
  | Lt => true
  | Gt => false
  | Eq => match String.compare (snd a) (snd b) with
          | Gt => false
          | _ => true
          end
  end.

Fixpoint insert_key (k : Key) (l : list Key) : list Key :=
  match l with
  | [] => [k]
  | h :: t => if key_leb k h then k :: h :: t else h :: insert_key k t
  end.

Definition sort_keys (l : list Key) : list Key := fold_right insert_key [] l.

(** The distinct keys, in first-occurrence order. *)
Fixpoint unique_keys (l : list Key) : list Key :=
  match l with
  | [] => []
  | k :: t => k :: List.filter (fun k' => negb (key_eqb k' k)) (unique_keys t)
  end.

Definition Qsum (l : list Q) : Q := fold_right Qplus 0%Q l.

(** The members of the group [k]. *)
Definition group (k : Key) (l : list (Key * Q)) : list (Key * Q) :=
  List.filter (fun r => key_eqb (fst r) k) l.

(** One row per distinct key (groups are sorted by key, pandas' default
    [sort=True]); the value is the sum over the group. *)
Definition groupby_sum (l : list (Key * Q)) : list SummaryRow :=
  map (fun k => (k, Qsum (map snd (group k l))))
      (sort_keys (unique_keys (map fst l))).

End Pandas.

(** ** [3.1_spatial_query_analysis.py] *)

Module SpatialQueryAnalysis.
Section WithGeometry.
Context {G CRS : Type} `{Geometry G CRS}.

(** [gdf.to_crs(crs)]: every geometry is transformed from the frame's CRS
    to the target one; the other columns are kept. *)
Definition reproject {A} (src dst : CRS) (f : Feature G A) : Feature G A :=
  {| geometry := transform src dst (geometry f); attributes := attributes f |}.

Definition to_crs {A} (gdf : GeoDataFrame G CRS A) (dst : CRS) : GeoDataFrame G CRS A :=
  {| crs := dst; rows := map (reproject (crs gdf) dst) (rows gdf) |}.

Definition join_row (l : Feature G LandUse) (r : Feature G Admin) : Feature G Joined :=
  {| geometry := geometry l;
     attributes := {| j_landuse_type := landuse_type (attributes l);
                      j_area_ha := area_ha (attributes l);
                      j_province_name := province_name (attributes r) |} |}.

(** [gpd.sjoin(left, right, how='inner', predicate='intersects')]: one row
    for every pair of a left and a right row whose geometries intersect;
    the row keeps the left geometry and the columns of both sides (the
    [index_right] column, which the analysis never reads, is left out). *)
Definition sjoin (left : GeoDataFrame G CRS LandUse) (right : GeoDataFrame G CRS Admin)
  : GeoDataFrame G CRS Joined :=
  {| crs := crs left;
     rows := flat_map (fun l =>
               map (join_row l)
                   (List.filter (fun r => intersects (geometry l) (geometry r)) (rows right)))
             (rows left) |}.

(** [joined['area_ha'] = joined.geometry.area / 10000]. *)
Definition assign_area_ha (joined : GeoDataFrame G CRS Joined) : GeoDataFrame G CRS Joined :=
  {| crs := crs joined;
     rows := map (fun r => {| geometry := geometry r;
                              attributes := {| j_landuse_type := j_landuse_type (attributes r);
                                               j_area_ha := (area (geometry r) / 10000)%Q;
                                               j_province_name := j_province_name (attributes r) |} |})
                 (rows joined) |}.

Definition analyze_polygonal_overlap
    (gdf_admin : GeoDataFrame G CRS Admin) (gdf_land_use : GeoDataFrame G CRS LandUse)
  : list SummaryRow :=
  let gdf_land_use := to_crs gdf_land_use (crs gdf_admin) in
  let joined := sjoin gdf_land_use gdf_admin in
  let joined := assign_area_ha joined in
  let summary :=
    Pandas.groupby_sum
      (map (fun r => ((j_province_name (attributes r), j_landuse_type (attributes r)),
                      j_area_ha (attributes r)))
           (rows joined)) in
  summary.

(** [gdf[mask]]: the rows at which the boolean mask is [True]. *)
Definition boolean_index {A} (gdf : GeoDataFrame G CRS A) (mask : list bool) : GeoDataFrame G CRS A :=
  {| crs := crs gdf;
     rows := map fst (List.filter snd (combine (rows gdf) mask)) |}.

(** [mask] is a local variable that only the three branches bind; the
    [return] reads it. *)
Definition perform_spatial_query {A}
    (gdf : GeoDataFrame G CRS A) (target_geometry : G) (operation : string)
  : Result (GeoDataFrame G CRS A) :=
  let mask : option (list bool) :=
    if String.eqb operation "intersects" then
      Some (map (fun r => intersects (geometry r) target_geometry) (rows gdf))
    else if String.eqb operation "within" then
      Some (map (fun r => within (geometry r) target_geometry) (rows gdf))
    else if String.eqb operation "contains" then
      Some (map (fun r => contains (geometry r) target_geometry) (rows gdf))
    else None in
  match mask with
  | Some mask => Ok (boolean_index gdf mask)
  | None => Raise (UnboundLocalError "mask")
  end.

(** *** The aggregation in the words of the specification *)

(** The one-to-many join: every pair of a feature of the reprojected layer
    and a region whose geometries intersect. *)
Definition matched_pairs
    (admin_regions : GeoDataFrame G CRS Admin) (feature_layer : GeoDataFrame G CRS LandUse)
  : list (Feature G LandUse * Feature G Admin) :=
  List.filter (fun p => intersects (geometry (fst p)) (geometry (snd p)))
    (list_prod (rows (to_crs feature_layer (crs admin_regions))) (rows admin_regions)).

(** A feature's area in hectares. *)
Definition hectares (f : Feature G LandUse) : Q := (area (geometry f) / 10000)%Q.

(** (region name, category label) of a matched pair. *)
Definition pair_key (p : Feature G LandUse * Feature G Admin) : Pandas.Key :=
  (province_name (attributes (snd p)), landuse_type (attributes (fst p))).

(** The summed area of the matched pairs with the key [k]. *)
Definition spec_group_area
    (admin_regions : GeoDataFrame G CRS Admin) (feature_layer : GeoDataFrame G CRS LandUse)
    (k : Pandas.Key) : Q :=
  Pandas.Qsum (map (fun p => hectares (fst p))
                 (List.filter (fun p => Pandas.key_eqb (pair_key p) k)
                    (matched_pairs admin_regions feature_layer))).

(** The number of regions that the (reprojected) feature intersects. *)
Definition regions_hit
    (admin_regions : GeoDataFrame G CRS Admin) (src : CRS) (f : Feature G LandUse) : nat :=
  length (List.filter
            (fun r => intersects (transform src (crs admin_regions) (geometry f)) (geometry r))
            (rows admin_regions)).

(** The area of the whole layer, every feature once. *)
Definition raw_total_ha (dst : CRS) (feature_layer : GeoDataFrame G CRS LandUse) : Q :=
  Pandas.Qsum (map (fun f => (area (transform (crs feature_layer) dst (geometry f)) / 10000)%Q)
                 (rows feature_layer)).

End WithGeometry.
End SpatialQueryAnalysis.

(** ** [3.2_map_service_compar.py] *)

Module MapServiceCompar.

(** Line 6: the request URL. *)
Definition geocode_url (location_name api_key : string) : string :=
  ("https://maps.googleapis.com/maps/api/geocode/json?address="
     ++ location_name ++ "&key=" ++ api_key)%string.

Section WithOverlay.
Context {G : Type} `{Overlay G}.

(** [requests.get(url).json()]: the decoded response, or the exception that
    requests raises (connection failure, timeout, undecodable body). *)
Context {Json : Type} (requests_get_json : string -> Result Json).

(** Modelled from the spec: the step that turns the response into
    [google_geom].  The source leaves it out ("geometry extraction logic",
    with the assignment of [google_geom] commented out); the spec describes
    the collaborator as returning either a geometry or a fetch error (no
    match found, rate limiting, ...). *)
Context (extract_geometry : Json -> Result G).

(** Lines 12-14: the two areas and the guarded quotient. *)
Definition iou (your_data_geometry google_geom : G) : Result Q :=
  let intersection_area := overlay_area (intersection your_data_geometry google_geom) in
  let union_area := overlay_area (union_ your_data_geometry google_geom) in
  if gt union_area 0 then truediv intersection_area union_area else Ok 0%Q.

Definition compare_with_google_maps
    (api_key location_name : string) (your_data_geometry : G) : Result (Q * G) :=
  let url := geocode_url location_name api_key in
  response ← requests_get_json url;
  google_geom ← extract_geometry response;
  iou_score ← iou your_data_geometry google_geom;
  mret (iou_score, google_geom).

End WithOverlay.
End MapServiceCompar.

(** ** [main_igt_spatial_pipeline.py] *)

Module Pipeline.

Definition default_config : gmap string Val :=
  <["database" := VDict (<["host" := VStr "localhost"]>
                         (<["port" := VInt 5432]>
                         (<["database" := VStr "igt_db"]>
                         (<["user" := VStr "postgres"]>
                         (<["password" := VStr "admin123"]> ∅)))))]>
  (<["use_sample_data" := VBool true]>
  (<["analysis" := VDict (<["target_province" := VStr "JK"]>
                         (<["connection_radius_km" := VInt 100]>
                         (<["place_name" := VStr "Jakarta, Indonesia"]> ∅)))]> ∅)).

(** Lines 103-107: [if config: default_config.update(config)], then
    [config = default_config].  The argument is [None] or a dictionary. *)
Definition merge_config (config : option (gmap string Val)) : gmap string Val :=
  match config with
  | Some c => if truthy (VDict c) then update default_config c else default_config
  | None => default_config
  end.

(** What the pipeline returns, without the two sample frames. *)
Record PipelineOutput := {
  output_config : gmap string Val;
  status : string
}.

(** The pipeline as far as the configuration decides it: the merge, the
    [use_sample_data] switch of phase 1 and the nested reads of phases 2
    and 5; logging is left out, and the [except] clause re-raises what it
    caught. *)
Definition main_execution_pipeline (config : option (gmap string Val)) : Result PipelineOutput :=
  let config := merge_config config in
  use_sample_data ← getitem config "use_sample_data";
  if truthy use_sample_data then
    database ← getitem config "database";
    _ ← subscript database "database";
    database ← getitem config "database";
    _ ← subscript database "host";
    analysis ← getitem config "analysis";
    _ ← subscript analysis "connection_radius_km";
    analysis ← getitem config "analysis";
    _ ← subscript analysis "place_name";
    mret {| output_config := config; status := "success" |}
  else
    Raise (ValueError "Real data loading not configured. Set use_sample_data=True for demo.").

(** The namespace that [parser.parse_args()] returns: [--module] (default
    [None]), [--province] (default ['JK']) and the [store_true] flag
    [--sample-data]. *)
Record Namespace := {
  module : option string;
  province : string;
  sample_data : bool
}.

(** Lines 438-445. *)
Definition my_config (args : Namespace) : gmap string Val :=
  <["use_sample_data" := or_ (VBool (sample_data args)) (VBool true)]>
  (<["analysis" := VDict (<["target_province" := VStr (province args)]>
                         (<["connection_radius_km" := VInt 150]>
                         (<["place_name" := VStr (if String.eqb (province args) "JI"
                                                  then "Surabaya, Indonesia"
                                                  else "Jakarta, Indonesia")]> ∅)))]> ∅).

(** An override of the [analysis] section that sets the target province
    only. *)
Definition override_province : gmap string Val :=
  <["analysis" := VDict (<["target_province" := VStr "JB"]> ∅)]> ∅.

End Pipeline.

(** ** An executable geometry: points and axis-parallel boxes *)

Module Planar.

(** [Point(x, y)] and [box(minx, miny, maxx, maxy)] of [shapely.geometry],
    the two constructors [create_sample_data] uses.  A box is meant with
    [minx < maxx] and [miny < maxy]. *)
Inductive Shape :=
| Point (x y : Q)
| box (minx miny maxx maxy : Q).

Definition Qlt_bool (a b : Q) : bool := negb (Qle_bool b a).

(** A point has no area. *)
Definition shape_area (g : Shape) : Q :=
  match g with
  | Point _ _ => 0
  | box minx miny maxx maxy => (maxx - minx) * (maxy - miny)
  end.

(** The closed point sets share a point. *)
Definition shape_intersects (a b : Shape) : bool :=
  match a, b with
  | Point x y, Point x' y' => Qeq_bool x x' && Qeq_bool y y'
  | Point x y, box minx miny maxx maxy
  | box minx miny maxx maxy, Point x y =>
      Qle_bool minx x && Qle_bool x maxx && Qle_bool miny y && Qle_bool y maxy
  | box ax0 ay0 ax1 ay1, box bx0 by0 bx1 by1 =>
      Qle_bool ax0 bx1 && Qle_bool bx0 ax1 && Qle_bool ay0 by1 && Qle_bool by0 ay1
  end.

(** [a.within(b)]: no point of [a] lies outside [b], and the interiors
    share a point; so a point on the boundary of a box is not within it. *)
Definition shape_within (a b : Shape) : bool :=
  match a, b with
  | Point x y, Point x' y' => Qeq_bool x x' && Qeq_bool y y'
  | Point x y, box minx miny maxx maxy =>
      Qlt_bool minx x && Qlt_bool x maxx && Qlt_bool miny y && Qlt_bool y maxy
  | box _ _ _ _, Point _ _ => false
  | box ax0 ay0 ax1 ay1, box bx0 by0 bx1 by1 =>
      Qlt_bool ax0 ax1 && Qlt_bool ay0 ay1 &&
      Qle_bool bx0 ax0 && Qle_bool ax1 bx1 && Qle_bool by0 ay0 && Qle_bool ay1 by1
  end.

Definition shape_contains (a b : Shape) : bool := shape_within b a.

(** Multiplication of every coordinate by [k]. *)
Definition scale (k : Q) (g : Shape) : Shape :=
  match g with
  | Point x y => Point (k * x) (k * y)
  | box minx miny maxx maxy => box (k * minx) (k * miny) (k * maxx) (k * maxy)
  end.

(** Geographic coordinates: the single CRS of the sample data.  geopandas
    returns the geometries unchanged when source and target CRS agree. *)
Inductive Geographic := EPSG4326.

#[export] Instance geographic : Geometry Shape Geographic := {|
  area := shape_area;
  intersects := shape_intersects;
  within := shape_within;
  contains := shape_contains;
  transform := fun _ _ g => g
|}.

(** Two local planar grids with the same origin and axes, read in metres
    and in kilometres. *)
Inductive LocalGrid := Metres | Kilometres.

Definition regrid (src dst : LocalGrid) (g : Shape) : Shape :=
  match src, dst with
  | Metres, Kilometres => scale (1 # 1000) g
  | Kilometres, Metres => scale 1000 g
  | _, _ => g
  end.

#[export] Instance projected : Geometry Shape LocalGrid := {|
  area := shape_area;
  intersects := shape_intersects;
  within := shape_within;
  contains := shape_contains;
  transform := regrid
|}.

(** The scenario of one region and one point feature. *)
Definition jakarta_admin : GeoDataFrame Shape Geographic Admin :=
  {| crs := EPSG4326;
     rows := [ {| geometry := box (1065 # 10) (-64 # 10) 107 (-61 # 10);
                  attributes := {| province_name := "DKI Jakarta" |} |} ] |}.

Definition urban_point : GeoDataFrame Shape Geographic LandUse :=
  {| crs := EPSG4326;
     rows := [ {| geometry := Point (1067 # 10) (-62 # 10);
                  attributes := {| landuse_type := "Urban"; area_ha := 20 |} |} ] |}.

(** One region, in metres, covering two forest parcels of 1000 m x 1000 m
    and 1000 m x 500 m; [stated1] and [stated2] are the values of the
    parcels' own [area_ha] column. *)
Definition region_R : GeoDataFrame Shape LocalGrid Admin :=
  {| crs := Metres;
     rows := [ {| geometry := box 0 0 5000 5000;
                  attributes := {| province_name := "R" |} |} ] |}.

Definition forest_parcels (stated1 stated2 : Q) : GeoDataFrame Shape LocalGrid LandUse :=
  {| crs := Metres;
     rows := [ {| geometry := box 1000 1000 2000 2000;
                  attributes := {| landuse_type := "Forest"; area_ha := stated1 |} |};
               {| geometry := box 3000 3000 4000 3500;
                  attributes := {| landuse_type := "Forest"; area_ha := stated2 |} |} ] |}.

(** The same two parcels delivered in kilometres. *)
Definition forest_parcels_km : GeoDataFrame Shape LocalGrid LandUse :=
  {| crs := Kilometres;
     rows := [ {| geometry := box 1 1 2 2;
                  attributes := {| landuse_type := "Forest"; area_ha := 100 |} |};
               {| geometry := box 3 3 4 (35 # 10);
                  attributes := {| landuse_type := "Forest"; area_ha := 50 |} |} ] |}.

(** Two adjacent regions and a parcel of 1000 m x 1000 m lying across
    their common border, and a second parcel outside both. *)
Definition two_regions : GeoDataFrame Shape LocalGrid Admin :=
  {| crs := Metres;
     rows := [ {| geometry := box 0 0 5000 5000;
                  attributes := {| province_name := "West" |} |};
               {| geometry := box 5000 0 10000 5000;
                  attributes := {| province_name := "East" |} |} ] |}.

Definition border_parcel : Feature Shape LandUse :=
  {| geometry := box 4500 1000 5500 2000;
     attributes := {| landuse_type := "Forest"; area_ha := 100 |} |}.

Definition far_parcel : Feature Shape LandUse :=
  {| geometry := box 20000 20000 21000 21000;
     attributes := {| landuse_type := "Water"; area_ha := 100 |} |}.

Definition border_layer : GeoDataFrame Shape LocalGrid LandUse :=
  {| crs := Metres; rows := [border_parcel] |}.

End Planar.

(** ** An executable overlay: unions of unit grid cells *)

Module Raster.

(** A geometry is a finite union of closed unit squares, each named by its
    lower-left corner; the empty list is the empty geometry. *)
Definition Cells : Type := list (Z * Z).

Definition cell_eqb (c d : Z * Z) : bool :=
  (fst c =? fst d)%Z && (snd c =? snd d)%Z.

Definition mem (c : Z * Z) (g : Cells) : bool := existsb (cell_eqb c) g.

Fixpoint distinct (g : Cells) : Cells :=
  match g with
  | [] => []
  | c :: t => if mem c t then distinct t else c :: distinct t
  end.

Definition cells_intersection (a b : Cells) : Cells :=
  List.filter (fun c => mem c b) a.

Definition cells_union (a b : Cells) : Cells := a ++ b.

Definition cells_area (g : Cells) : Q :=
  inject_Z (Z.of_nat (length (distinct g))).

#[export] Instance cells_overlay : Overlay Cells := {|
  intersection := cells_intersection;
  union_ := cells_union;
  overlay_area := cells_area
|}.

(** A geocoding service with one known place.  A request either fails on
    the way, or is answered with candidate geometries or with a status
    only. *)
Inductive Response :=
| Results (g : Cells)
| Status (s : string).

(** The network is down. *)
Definition offline (url : string) : Result Response :=
  Raise (RequestException "ConnectionError").

(** The service knows [Jakarta] (a 2 x 2 block of cells) for the key [k]
    and answers every other request with [ZERO_RESULTS]. *)
Definition online (url : string) : Result Response :=
  if String.eqb url (MapServiceCompar.geocode_url "Jakarta" "k")
  then Ok (Results [(0, 0); (1, 0); (0, 1); (1, 1)]%Z)
  else Ok (Status "ZERO_RESULTS").

(** An extraction step that reports a response without geometry as an
    error. *)
Definition extract (r : Response) : Result Cells :=
  match r with
  | Results g => Ok g
  | Status s => Raise (ValueError s)
  end.

End Raster.

(** ** [2.1_data_ingest_geodata.py] *)

Module DataIngest.

(** [s.endswith(suffix)]. *)
Fixpoint endswith (s suffix : string) : bool :=
  if String.eqb s suffix then true
  else match s with
       | EmptyString => false
       | String _ t => endswith t suffix
       end.

(** The truth value of the optional [layer_name]: [None] and the empty
    string are false. *)
Definition layer_given (layer_name : option string) : bool :=
  match layer_name with
  | None => truthy VNone
  | Some s => truthy (VStr s)
  end.

Section WithGeometry.
Context {G CRS A : Type} `{Geometry G CRS}.

(** What [gpd.read_file] hands back: the rows, and the CRS when the file
    declares one. *)
Record FileFrame := {
  file_crs : option CRS;
  file_rows : list (Feature G A)
}.

(** The CRS with EPSG code 4326. *)
Context (epsg4326 : CRS).

(** [gpd.read_file(path)] and [gpd.read_file(path, layer=name)]: the frame
    read, or the error of the reader. *)
Context (read_file : string -> option string -> Result FileFrame).

Definition load_indonesian_data (data_path : string) (layer_name : option string)
  : Result (GeoDataFrame G CRS A) :=
  gdf ← (if endswith data_path ".gpkg" && layer_given layer_name
         then read_file data_path layer_name
         else read_file data_path None);
  match file_crs gdf with
  | None =>
      (* set_crs(epsg=4326): the CRS is declared, the coordinates stay *)
      mret {| crs := epsg4326; rows := file_rows gdf |}
  | Some c =>
      (* to_crs(epsg=4326) *)
      mret (SpatialQueryAnalysis.to_crs {| crs := c; rows := file_rows gdf |} epsg4326)
  end.

End WithGeometry.
Arguments FileFrame G CRS A : clear implicits.
End DataIngest.

(** ** [main_igt_spatial_pipeline.py]: the sample data *)

Module SampleData.
Import Planar.

(** Columns of the sample provinces. *)
Record Province := { PROV_CODE : string; PROV_NAME : string }.

(** Columns of the sample land-use layer: [id], and [landuse_type] and
    [area_ha]. *)
Record SampleLandUse := { id : string; columns : LandUse }.

Definition provinces_gdf : GeoDataFrame Shape Geographic Province :=
  {| crs := EPSG4326;
     rows := [ {| geometry := box (1065 # 10) (-64 # 10) 107 (-61 # 10);
                  attributes := {| PROV_CODE := "JK"; PROV_NAME := "DKI Jakarta" |} |};
               {| geometry := box 107 (-75 # 10) (1085 # 10) (-61 # 10);
                  attributes := {| PROV_CODE := "JB"; PROV_NAME := "Jawa Barat" |} |};
               {| geometry := box 109 (-8) 111 (-65 # 10);
                  attributes := {| PROV_CODE := "JT"; PROV_NAME := "Jawa Tengah" |} |};
               {| geometry := box 111 (-9) (1145 # 10) (-68 # 10);
                  attributes := {| PROV_CODE := "JI"; PROV_NAME := "Jawa Timur" |} |} ] |}.

Definition num_points : nat := 50.

(** [geom.bounds]. *)
Definition bounds (g : Shape) : Q * Q * Q * Q :=
  match g with
  | Point x y => (x, y, x, y)
  | box minx miny maxx maxy => (minx, miny, maxx, maxy)
  end.

(** [provinces_gdf[provinces_gdf['PROV_CODE'] == prov_code].geometry.iloc[0]];
    [None] stands for the [IndexError] of [iloc[0]] on an empty selection. *)
Definition province_geometry (prov_code : string) : option Shape :=
  match List.filter (fun r => String.eqb (PROV_CODE (attributes r)) prov_code)
                    (rows provinces_gdf) with
  | r :: _ => Some (geometry r)
  | [] => None
  end.

(** [str(i)] for a natural number. *)
Definition str (i : nat) : string := NilZero.string_of_uint (Nat.to_uint i).

Section WithRandom.
(** The state of numpy's global generator, and the three calls made on it.
    The values drawn are whatever the generator gives. *)
Context {RNG : Type}.
Context (seed : Z -> RNG).
Context (uniform : Q -> Q -> RNG -> Q * RNG).
Context (choice : list string -> RNG -> string * RNG).

(** The body of the inner loop: one feature is appended. *)
Definition sample_feature (prov_code : string) (i : nat)
    (st : list (Feature Shape SampleLandUse) * RNG)
  : option (list (Feature Shape SampleLandUse) * RNG) :=
  let '(land_use_data, rng) := st in
  geom ← province_geometry prov_code;
  let '(minx, miny, maxx, maxy) := bounds geom in
  let '(x, rng) := uniform minx maxx rng in
  let '(y, rng) := uniform miny maxy rng in
  let point := Point x y in
  let '(landuse_type, rng) := choice ["Forest"; "Agriculture"; "Urban"; "Water"] rng in
  let '(area_ha, rng) := uniform 10%Q 1000%Q rng in
  Some (land_use_data ++
          [ {| geometry := point;
               attributes := {| id := ("LU_" ++ prov_code ++ "_" ++ str i)%string;
                                columns := {| landuse_type := landuse_type;
                                              area_ha := area_ha |} |} |} ],
        rng).

(** A [for] loop whose body may raise. *)
Fixpoint for_each {X S : Type} (body : X -> S -> option S) (xs : list X) (st : S) : option S :=
  match xs with
  | [] => Some st
  | x :: xs => st ← body x st; for_each body xs st
  end.

Definition create_sample_data
  : option (GeoDataFrame Shape Geographic Province * GeoDataFrame Shape Geographic SampleLandUse) :=
  let rng := seed 42 in
  st ← for_each (fun prov_code =>
                   for_each (sample_feature prov_code) (seq 0 (num_points / 4)))
                (map (fun r => PROV_CODE (attributes r)) (rows provinces_gdf))
                ([], rng);
  Some (provinces_gdf, {| crs := EPSG4326; rows := fst st |}).

(** What the generator promises: [uniform(low, high)] lies in
    [[low, high)], and [choice] gives an element of its list. *)
Definition uniform_in_range : Prop :=
  forall low high rng, (low < high)%Q ->
    (low <= fst (uniform low high rng))%Q /\ (fst (uniform low high rng) < high)%Q.

Definition choice_from_list : Prop :=
  forall l rng, l <> [] -> In (fst (choice l rng)) l.

(** What the loop body makes of the position [(prov_code, i)]: the id is
    built from the position, and the point, the category and the area are
    draws of the generator, the point from the bounds of the province. *)
Definition sampled (slot : string * nat) (f : Feature Shape SampleLandUse) : Prop :=
  id (attributes f) = ("LU_" ++ fst slot ++ "_" ++ str (snd slot))%string
  /\ exists geom r1 r2 r3 r4,
       province_geometry (fst slot) = Some geom
       /\ (let '(minx, miny, maxx, maxy) := bounds geom in
           geometry f = Point (fst (uniform minx maxx r1)) (fst (uniform miny maxy r2)))
       /\ landuse_type (columns (attributes f))
          = fst (choice ["Forest"; "Agriculture"; "Urban"; "Water"] r3)
       /\ area_ha (columns (attributes f)) = fst (uniform 10%Q 1000%Q r4).

End WithRandom.

(** The positions the two loops run through, in order. *)
Definition slots : list (string * nat) :=
  list_prod (map (fun r => PROV_CODE (attributes r)) (rows provinces_gdf))
            (seq 0 (num_points / 4)).

(** A generator for running the code: it counts the draws, gives the
    midpoint of the interval and the first element of the list. *)
Definition counter_seed (s : Z) : nat := 0.
Definition midpoint (low high : Q) (n : nat) : Q * nat := (((low + high) / 2)%Q, S n).
Definition first_choice (l : list string) (n : nat) : string * nat := (hd "" l, S n).

End SampleData.

(** ** [main_igt_spatial_pipeline.py]: the module runners and the entry point *)

Module Cli.
Import Planar SampleData Pipeline.

(** What ends a call: an exception of [Py], a [NameError], or the
    [IndexError] of the sample data. *)
Inductive Uncaught :=
| NameError (name : string)
| IndexError
| Other (e : Exception).

Section WithRandom.
Context {RNG : Type}.
Context (seed : Z -> RNG).
Context (uniform : Q -> Q -> RNG -> Q * RNG).
Context (choice : list string -> RNG -> string * RNG).

(** [run_data_ingestion(data_path, layer_name=None, **kwargs)]: both
    arguments are ignored. *)
Definition run_data_ingestion (data_path : string) (layer_name : option string)
  : Uncaught + GeoDataFrame Shape Geographic Province :=
  match create_sample_data seed uniform choice with
  | Some (provinces_gdf, _) => inr provinces_gdf
  | None => inl IndexError
  end.

Section WithFrames.
Context {G CRS A1 A2 : Type} `{Geometry G CRS}.

(** [run_spatial_analysis(gdf1, gdf2, operation='intersects', **kwargs)]. *)
Definition run_spatial_analysis
    (gdf1 : GeoDataFrame G CRS A1) (gdf2 : GeoDataFrame G CRS A2) (operation : string)
  : gmap string Val :=
  if String.eqb operation "intersects" then
    let intersection_count :=
      fold_left (fun count geom1 =>
                   fold_left (fun count geom2 =>
                                if intersects geom1 geom2 then (count + 1)%Z else count)
                             (map geometry (rows gdf2)) count)
                (map geometry (rows gdf1)) 0%Z in
    {[ "intersection_count" := VInt intersection_count ]}
  else {[ "status" := VStr "analysis_completed" ]}.

(** The keyword arguments of [run_specific_module] that a runner can
    bind; every keyword that is present has the type its runner expects,
    other keywords go to the runner's [**kwargs] and are never read. *)
Record Kwargs := {
  kw_data_path : option string;
  kw_layer_name : option string;
  kw_gdf1 : option (GeoDataFrame G CRS A1);
  kw_gdf2 : option (GeoDataFrame G CRS A2);
  kw_operation : option string
}.

Inductive ModuleResult :=
| Ingested (gdf : GeoDataFrame Shape Geographic Province)
| Analysed (result : gmap string Val).

Definition missing_one (f arg : string) : Uncaught :=
  Other (TypeError (f ++ "() missing 1 required positional argument: '" ++ arg ++ "'")%string).

Definition missing_two (f arg1 arg2 : string) : Uncaught :=
  Other (TypeError (f ++ "() missing 2 required positional arguments: '"
                      ++ arg1 ++ "' and '" ++ arg2 ++ "'")%string).

(** [repr] of the list of keys of [module_executors]. *)
Definition available : string :=
  "['data_ingestion', 'spatial_analysis', 'network_analysis', 'map_comparison']".

Definition run_specific_module (module_name : string) (kwargs : Kwargs)
  : Uncaught + ModuleResult :=
  if String.eqb module_name "data_ingestion" then
    match kw_data_path kwargs with
    | Some data_path =>
        match run_data_ingestion data_path (kw_layer_name kwargs) with
        | inr gdf => inr (Ingested gdf)
        | inl e => inl e
        end
    | None => inl (missing_one "run_data_ingestion" "data_path")
    end
  else if String.eqb module_name "spatial_analysis" then
    match kw_gdf1 kwargs, kw_gdf2 kwargs with
    | Some gdf1, Some gdf2 =>
        inr (Analysed (run_spatial_analysis gdf1 gdf2
                         (default "intersects" (kw_operation kwargs))))
    | None, Some _ => inl (missing_one "run_spatial_analysis" "gdf1")
    | Some _, None => inl (missing_one "run_spatial_analysis" "gdf2")
    | None, None => inl (missing_two "run_spatial_analysis" "gdf1" "gdf2")
    end
  else if String.eqb module_name "network_analysis" then
    (* the lambda calls [run_network_analysis], which nothing defines *)
    inl (NameError "run_network_analysis")
  else if String.eqb module_name "map_comparison" then
    inl (NameError "run_map_comparison")
  else
    inl (Other (ValueError ("Unknown module: " ++ module_name
                              ++ ". Available: " ++ available)%string)).

End WithFrames.

(** The truth value of [args.module]: [None] and the empty string are
    false. *)
Definition module_given (m : option string) : bool :=
  match m with
  | None => truthy VNone
  | Some s => truthy (VStr s)
  end.

(** What a run of the script did before it ended normally. *)
Inductive Ran :=
| ModuleRan
| NothingRan
| PipelineRan (results : PipelineOutput).

(** The keywords [admin_gdf] and [province_code] of the call in the entry
    point: no runner binds them. *)
Definition no_bound_kwargs : @Kwargs Shape Geographic Province Province :=
  {| kw_data_path := None; kw_layer_name := None;
     kw_gdf1 := None; kw_gdf2 := None; kw_operation := None |}.

(** The [__main__] block after [parse_args]. *)
Definition main (args : Namespace) : Uncaught + Ran :=
  let my_config := my_config args in
  if module_given (module args) then
    if String.eqb (default "" (module args)) "network_analysis" then
      match create_sample_data seed uniform choice with
      | None => inl IndexError
      | Some (provinces_gdf, land_use_gdf) =>
          match run_specific_module "network_analysis" no_bound_kwargs with
          | inr _ => inr ModuleRan
          | inl e => inl e
          end
      end
    else inr NothingRan
  else
    match main_execution_pipeline (Some my_config) with
    | Ok results => inr (PipelineRan results)
    | Raise e => inl (Other e)
    end.

End WithRandom.
End Cli.

(** ** Files and generators for running the loader and the sample data *)

Module Examples.
Import Planar DataIngest.

(** WGS 84 coordinates read in degrees (EPSG:4326) and in minutes of
    arc. *)
Inductive Angular := Degrees | ArcMinutes.

Definition rescale (src dst : Angular) (g : Shape) : Shape :=
  match src, dst with
  | ArcMinutes, Degrees => scale (1 # 60) g
  | Degrees, ArcMinutes => scale 60 g
  | _, _ => g
  end.

#[export] Instance angular : Geometry Shape Angular := {|
  area := shape_area;
  intersects := shape_intersects;
  within := shape_within;
  contains := shape_contains;
  transform := rescale
|}.

Definition jakarta_row (g : Shape) : Feature Shape Admin :=
  {| geometry := g; attributes := {| province_name := "DKI Jakarta" |} |}.

(** A reader that knows two files: a shapefile that declares minutes of
    arc, and a GeoPackage without CRS whose only layer is [PROVINSI]. *)
Definition disk (path : string) (layer : option string)
  : Result (FileFrame Shape Angular Admin) :=
  if String.eqb path "batas.shp" then
    Ok {| file_crs := Some ArcMinutes;
          file_rows := [jakarta_row (box 6390 (-384) 6420 (-366))] |}
  else if String.eqb path "igt.gpkg" then
    match layer with
    | Some "PROVINSI" =>
        Ok {| file_crs := None;
              file_rows := [jakarta_row (box (1065 # 10) (-64 # 10) 107 (-61 # 10))] |}
    | _ => Raise (ValueError "layer not found")
    end
  else Raise (ValueError "No such file or directory").

(** A layer of two points, the first inside the box from (0, 0) to
    (10, 10) and the second outside, and the layer of the first alone. *)
Definition point_row (x y : Q) (category : string) : Feature Shape LandUse :=
  {| geometry := Point x y;
     attributes := {| landuse_type := category; area_ha := 0 |} |}.

Definition two_points : GeoDataFrame Shape LocalGrid LandUse :=
  {| crs := Metres; rows := [point_row 5 5 "Urban"; point_row 20 20 "Water"] |}.

Definition inside_only : GeoDataFrame Shape LocalGrid LandUse :=
  {| crs := Metres; rows := [point_row 5 5 "Urban"] |}.

End Examples.

(** ** The overlap analysis on frames as geopandas has them *)

Module GeoFrames.

(** What ends a call on such a frame: an [AttributeError], or an exception
    of [Py]. *)
Inductive Raised :=
| AttributeError (attr : string)
| Exc (e : Exception).

Section WithGeometry.
Context {G CRS : Type} `{Geometry G CRS}.

(** A GeoDataFrame without the guarantees of [GeoDataFrame]: the active
    geometry column may be missing (as in [gpd.GeoDataFrame()]), the
    geometry column may have no CRS, and the columns of the typed view [A]
    may be missing (as in [gpd.GeoDataFrame(geometry=[], crs=...)]).  The
    analysis reads column values in [groupby] only, after the column names
    have been looked up. *)
Record Frame (A : Type) := {
  active_geometry : bool;
  declared_crs : option CRS;
  has_columns : bool;
  records : list (Feature G A)
}.
Arguments active_geometry {A} _.
Arguments declared_crs {A} _.
Arguments has_columns {A} _.
Arguments records {A} _.

(** [gpd.GeoDataFrame()]. *)
Definition empty_frame {A} : Frame A :=
  {| active_geometry := false; declared_crs := None;
     has_columns := false; records := [] |}.

(** A frame with all the guarantees of [GeoDataFrame]. *)
Definition of_typed {A} (gdf : GeoDataFrame G CRS A) : Frame A :=
  {| active_geometry := true; declared_crs := Some (crs gdf);
     has_columns := true; records := rows gdf |}.

(** [gdf.crs]. *)
Definition get_crs {A} (gdf : Frame A) : Raised + option CRS :=
  if active_geometry gdf then inr (declared_crs gdf)
  else inl (AttributeError "crs").

(** [gdf.to_crs(crs)]: the geometry column is needed, then a CRS on it,
    then a target. *)
Definition to_crs {A} (gdf : Frame A) (target : option CRS)
  : Raised + GeoDataFrame G CRS A :=
  if active_geometry gdf then
    match declared_crs gdf, target with
    | None, _ =>
        inl (Exc (ValueError
          "Cannot transform naive geometries.  Please set a crs on the object first."))
    | Some _, None => inl (Exc (ValueError "Must pass either crs or epsg."))
    | Some src, Some dst =>
        inr (SpatialQueryAnalysis.to_crs {| crs := src; rows := records gdf |} dst)
    end
  else inl (AttributeError "geometry").

(** [analyze_polygonal_overlap] of [3.1_spatial_query_analysis.py], with
    the failures of each line. *)
Definition analyze_polygonal_overlap
    (gdf_admin : Frame Admin) (gdf_land_use : Frame LandUse)
  : Raised + list SummaryRow :=
  match get_crs gdf_admin with
  | inl e => inl e
  | inr admin_crs =>
      match to_crs gdf_land_use admin_crs with
      | inl e => inl e
      | inr land_use =>
          let joined :=
            SpatialQueryAnalysis.sjoin land_use
              {| crs := crs land_use; rows := records gdf_admin |} in
          let joined := SpatialQueryAnalysis.assign_area_ha joined in
          if negb (has_columns gdf_admin) then inl (Exc (KeyError "province_name"))
          else if negb (has_columns gdf_land_use) then inl (Exc (KeyError "landuse_type"))
          else
            inr (Pandas.groupby_sum
                   (map (fun r => ((j_province_name (attributes r),
                                    j_landuse_type (attributes r)),
                                   j_area_ha (attributes r)))
                        (rows joined)))
      end
  end.

End WithGeometry.
Arguments Frame G CRS A : clear implicits.
Arguments active_geometry {G CRS A} _.
Arguments declared_crs {G CRS A} _.
Arguments has_columns {G CRS A} _.
Arguments records {G CRS A} _.

(** An empty admin layer that has its geometry column, its CRS and its
    columns, as a query without matches returns it. *)
Definition no_regions : Frame Planar.Shape Planar.Geographic Admin :=
  {| active_geometry := true; declared_crs := Some Planar.EPSG4326;
     has_columns := true; records := [] |}.

End GeoFrames.

(** ** Counting the regions of one name *)

Module OverlapCounts.
Section WithGeometry.
Context {G CRS : Type} `{Geometry G CRS}.

(** The number of regions named [n] that the (reprojected) feature
    intersects. *)
Definition regions_hit_named
    (admin_regions : GeoDataFrame G CRS Admin) (src : CRS) (n : string)
    (f : Feature G LandUse) : nat :=
  length (List.filter
            (fun r => intersects (transform src (crs admin_regions) (geometry f)) (geometry r)
                      && String.eqb (province_name (attributes r)) n)
            (rows admin_regions)).

End WithGeometry.
End OverlapCounts.

(** * Properties *)

(** ** The command-line configuration and the configuration merge *)

Module PipelineFacts.
Import Pipeline.

Lemma or_bool_true (b : bool) : or_ (VBool b) (VBool true) = VBool true.
Proof. destruct b; reflexivity. Qed.

Lemma truthy_dict_lookup (c : gmap string Val) (k : string) (v : Val) :
  c !! k = Some v -> truthy (VDict c) = true.
Proof.
  intros Hk. simpl. apply negb_true_iff, bool_decide_eq_false.
  intros ->. rewrite lookup_empty in Hk. discriminate.
Qed.

Lemma merge_config_nonempty (c : gmap string Val) (k : string) (v : Val) :
  c !! k = Some v -> merge_config (Some c) = update default_config c.
Proof.
  intros Hk. unfold merge_config. now rewrite (truthy_dict_lookup c k v Hk).
Qed.

Lemma merge_config_lookup_default (c : gmap string Val) (k : string) :
  c !! k = None -> merge_config (Some c) !! k = default_config !! k.
Proof.
  intros Hk. unfold merge_config, update.
  destruct (truthy (VDict c)); [|reflexivity].
  rewrite lookup_union_r; auto.
Qed.

(** C10: for every parsed command line the [use_sample_data] entry of
    [my_config] is [True]; two command lines that differ only in the
    [--sample-data] flag build the same configuration, and the merged
    configuration the pipeline runs with has [use_sample_data = True]. *)
Theorem my_config_use_sample_data_always_true (args : Namespace) :
  my_config args !! "use_sample_data" = Some (VBool true)
  /\ (forall flag : bool,
        my_config {| module := module args; province := province args;
                     sample_data := flag |} = my_config args)
  /\ merge_config (Some (my_config args)) !! "use_sample_data" = Some (VBool true).
Proof.
  assert (Hlook : my_config args !! "use_sample_data" = Some (VBool true)).
  { unfold my_config. rewrite lookup_insert_eq. now rewrite or_bool_true. }
  split; [exact Hlook|]. split.
  - intros flag. unfold my_config. simpl. now rewrite !or_bool_true.
  - rewrite (merge_config_nonempty _ _ _ Hlook). unfold update.
    now apply lookup_union_Some_l.
Qed.

(** C9: the merge is a shallow update.  A top-level key of the caller's
    configuration is bound, after the merge, to exactly the caller's value:
    a nested read goes to the caller's mapping alone, so a nested field
    that the caller did not repeat is gone (the read raises [KeyError])
    whatever the default mapping held. *)
Theorem config_merge_is_shallow (config : gmap string Val) (k : string) (v : Val) :
  config !! k = Some v ->
  merge_config (Some config) !! k = Some v
  /\ (forall field : string,
        (r ← getitem (merge_config (Some config)) k; subscript r field)
        = subscript v field)
  /\ (forall (nested : gmap string Val) (field : string),
        v = VDict nested -> nested !! field = None ->
        (r ← getitem (merge_config (Some config)) k; subscript r field)
        = Raise (KeyError field)).
Proof.
  intros Hk.
  assert (Hm : merge_config (Some config) !! k = Some v).
  { rewrite (merge_config_nonempty _ _ _ Hk). unfold update.
    now apply lookup_union_Some_l. }
  split; [exact Hm|].
  assert (Hread : forall field,
            (r ← getitem (merge_config (Some config)) k; subscript r field)
            = subscript v field).
  { intros field. unfold getitem. rewrite Hm. reflexivity. }
  split; [exact Hread|].
  intros nested field -> Hnone. rewrite Hread. simpl. unfold getitem.
  now rewrite Hnone.
Qed.

Lemma config_merge_is_shallow_witness :
  merge_config (Some override_province) !! "analysis"
    = Some (VDict (<["target_province" := VStr "JB"]> ∅))
  /\ (r ← getitem (merge_config (Some override_province)) "analysis";
      subscript r "place_name") = Raise (KeyError "place_name").
Proof.
  destruct (config_merge_is_shallow override_province "analysis"
              (VDict (<["target_province" := VStr "JB"]> ∅)) eq_refl)
    as (H1 & _ & H3).
  split; [exact H1|].
  apply (H3 (<["target_province" := VStr "JB"]> ∅) "place_name" eq_refl).
  reflexivity.
Defined.

(** The default of the dropped field was present, and the pipeline, which
    reads it in phase 5, fails on the merged configuration. *)
Lemma default_analysis_has_place_name :
  (r ← getitem default_config "analysis"; subscript r "place_name")
  = Ok (VStr "Jakarta, Indonesia").
Proof. reflexivity. Qed.

Lemma pipeline_fails_on_partial_override :
  main_execution_pipeline (Some override_province)
  = Raise (KeyError "connection_radius_km").
Proof. vm_compute. reflexivity. Qed.

Lemma pipeline_succeeds_on_defaults :
  main_execution_pipeline None
  = Ok {| output_config := default_config; status := "success" |}.
Proof. vm_compute. reflexivity. Qed.

End PipelineFacts.

(** ** The similarity score and the geocoding collaborator *)

Module MapServiceFacts.
Import MapServiceCompar.

Lemma gt_true_iff (a b : Q) : gt a b = true <-> (b < a)%Q.
Proof.
  unfold gt. rewrite negb_true_iff. split.
  - intros Hle. apply Qnot_le_lt. intros Hab.
    apply Qle_bool_iff in Hab. congruence.
  - intros Hlt. destruct (Qle_bool a b) eqn:E; [|reflexivity].
    apply Qle_bool_iff in E. exfalso. apply (Qlt_not_le _ _ Hlt E).
Qed.

Lemma gt_false_iff (a b : Q) : gt a b = false <-> (a <= b)%Q.
Proof.
  unfold gt. rewrite negb_false_iff. apply Qle_bool_iff.
Qed.

Lemma truediv_nonzero (a b : Q) : ~ (b == 0)%Q -> truediv a b = Ok (a / b)%Q.
Proof.
  intros Hb. unfold truediv. destruct (Qeq_bool b 0) eqn:E; [|reflexivity].
  apply Qeq_bool_iff in E. contradiction.
Qed.

Lemma truediv_zero (a b : Q) : (b == 0)%Q -> truediv a b = Raise ZeroDivisionError.
Proof.
  intros Hb. unfold truediv. apply Qeq_bool_iff in Hb. now rewrite Hb.
Qed.

Section WithOverlay.
Context {G : Type} `{Overlay G}.

(** C5: the score of two geometries is the quotient of the intersection
    area by the union area when the union area is positive, and [0]
    otherwise, in particular when the union area is [0]; the division is
    never reached with a zero divisor. *)
Theorem iou_is_guarded_quotient (a b : G) :
  let i := overlay_area (intersection a b) in
  let u := overlay_area (union_ a b) in
  ((0 < u)%Q -> iou a b = Ok (i / u)%Q)
  /\ ((u <= 0)%Q -> iou a b = Ok 0%Q)
  /\ ((u == 0)%Q -> iou a b = Ok 0%Q)
  /\ iou a b <> Raise ZeroDivisionError.
Proof.
  intros i u.
  assert (Hpos : (0 < u)%Q -> iou a b = Ok (i / u)%Q).
  { intros Hu. unfold iou. fold i u.
    rewrite (proj2 (gt_true_iff u 0) Hu).
    apply truediv_nonzero. intros Hz. rewrite Hz in Hu.
    exact (Qlt_irrefl 0 Hu). }
  assert (Hle : (u <= 0)%Q -> iou a b = Ok 0%Q).
  { intros Hu. unfold iou. fold i u.
    now rewrite (proj2 (gt_false_iff u 0) Hu). }
  repeat split.
  - exact Hpos.
  - exact Hle.
  - intros Hz. apply Hle. rewrite Hz. apply Qle_refl.
  - destruct (Qlt_le_dec 0 u) as [Hu | Hu].
    + rewrite (Hpos Hu). discriminate.
    + rewrite (Hle Hu). discriminate.
Qed.

Context {Json : Type} (requests_get_json : string -> Result Json).
Context (extract_geometry : Json -> Result G).

Lemma compare_unfold (api_key location_name : string) (g : G) :
  compare_with_google_maps requests_get_json extract_geometry api_key location_name g
  = match requests_get_json (geocode_url location_name api_key) with
    | Raise e => Raise e
    | Ok response =>
        match extract_geometry response with
        | Raise e => Raise e
        | Ok google_geom =>
            match iou g google_geom with
            | Raise e => Raise e
            | Ok s => Ok (s, google_geom)
            end
        end
    end.
Proof.
  unfold compare_with_google_maps.
  destruct (requests_get_json _); [|reflexivity]. simpl.
  destruct (extract_geometry _); [|reflexivity]. simpl.
  destruct (iou _ _); reflexivity.
Qed.

(** C6: an error of the request, or of the step that produces the
    reference geometry, is what [compare_with_google_maps] raises; and a
    returned pair always holds the geometry that this step produced for
    the response, with its score. *)
Theorem fetch_error_propagates (api_key location_name : string) (g : G) :
  let url := geocode_url location_name api_key in
  let run := compare_with_google_maps requests_get_json extract_geometry
               api_key location_name g in
  (forall e, requests_get_json url = Raise e -> run = Raise e)
  /\ (forall response e,
        requests_get_json url = Ok response ->
        extract_geometry response = Raise e -> run = Raise e)
  /\ (forall score google_geom,
        run = Ok (score, google_geom) ->
        exists response,
          requests_get_json url = Ok response
          /\ extract_geometry response = Ok google_geom
          /\ iou g google_geom = Ok score).
Proof.
  intros url run. unfold run, url. rewrite compare_unfold.
  repeat split.
  - intros e ->. reflexivity.
  - intros response e -> ->. reflexivity.
  - intros score google_geom.
    destruct (requests_get_json _) as [response|e]; [|discriminate].
    destruct (extract_geometry response) as [geom|e] eqn:Hx; [|discriminate].
    destruct (iou g geom) as [s|e] eqn:Hs; [|discriminate].
    intros [= <- <-]. exists response. auto.
Qed.

End WithOverlay.

Import Raster.

Lemma iou_is_guarded_quotient_witness :
  iou [(0, 0); (1, 0)]%Z [(1, 0); (2, 0)]%Z = Ok (1 / 3)%Q
  /\ iou (@nil (Z * Z)) [] = Ok 0%Q.
Proof.
  split.
  - destruct (iou_is_guarded_quotient [(0, 0); (1, 0)]%Z [(1, 0); (2, 0)]%Z)
      as (Hpos & _).
    apply Hpos. reflexivity.
  - destruct (iou_is_guarded_quotient (@nil (Z * Z)) []) as (_ & _ & Hzero & _).
    apply Hzero. reflexivity.
Defined.

Lemma fetch_error_propagates_witness :
  compare_with_google_maps offline extract "k" "Jakarta" [(0, 0)]%Z
    = Raise (RequestException "ConnectionError")
  /\ compare_with_google_maps online extract "k" "Atlantis" [(0, 0)]%Z
    = Raise (ValueError "ZERO_RESULTS").
Proof.
  split.
  - destruct (fetch_error_propagates offline extract "k" "Jakarta" [(0, 0)]%Z)
      as (Hget & _).
    apply Hget. reflexivity.
  - destruct (fetch_error_propagates online extract "k" "Atlantis" [(0, 0)]%Z)
      as (_ & Hextract & _).
    apply (Hextract (Status "ZERO_RESULTS")); reflexivity.
Defined.

End MapServiceFacts.

(** ** Sums and groups *)

Module PandasFacts.
Import Pandas.

Lemma key_eqb_eq (a b : Key) : key_eqb a b = true <-> a = b.
Proof.
  destruct a as [a1 a2], b as [b1 b2]. unfold key_eqb. simpl.
  rewrite andb_true_iff, !String.eqb_eq. split.
  - intros [-> ->]. reflexivity.
  - intros [= -> ->]. auto.
Qed.

Lemma key_eqb_refl (a : Key) : key_eqb a a = true.
Proof. now apply key_eqb_eq. Qed.

Lemma key_eqb_neq (a b : Key) : key_eqb a b = false <-> a <> b.
Proof.
  rewrite <- key_eqb_eq. destruct (key_eqb a b); split; congruence.
Qed.

Lemma insert_key_perm (k : Key) (l : list Key) : Permutation (insert_key k l) (k :: l).
Proof.
  induction l as [|h t IH]; simpl.
  - reflexivity.
  - destruct (key_leb k h).
    + reflexivity.
    + rewrite IH. apply perm_swap.
Qed.

Lemma sort_keys_perm (l : list Key) : Permutation (sort_keys l) l.
Proof.
  induction l as [|k t IH]; simpl.
  - reflexivity.
  - rewrite insert_key_perm. now apply perm_skip.
Qed.

Lemma unique_keys_In (k : Key) (l : list Key) : In k (unique_keys l) <-> In k l.
Proof.
  induction l as [|h t IH]; simpl.
  - tauto.
  - rewrite filter_In, IH, negb_true_iff, key_eqb_neq.
    destruct (decide (h = k)) as [->|Hne]; [tauto|].
    split; [tauto|]. intros [Hh|Ht]; [tauto|]. right. split; congruence.
Qed.

Lemma NoDup_filter_list {A} (f : A -> bool) (l : list A) :
  List.NoDup l -> List.NoDup (List.filter f l).
Proof.
  induction 1 as [|x l Hx Hl IH]; simpl.
  - constructor.
  - destruct (f x); [|exact IH]. constructor; [|exact IH].
    rewrite filter_In. tauto.
Qed.

Lemma unique_keys_NoDup (l : list Key) : List.NoDup (unique_keys l).
Proof.
  induction l as [|h t IH]; simpl.
  - constructor.
  - constructor.
    + rewrite filter_In, negb_true_iff, key_eqb_neq. tauto.
    + now apply NoDup_filter_list.
Qed.

(** The key column of the result: the distinct keys, each once. *)
Lemma groupby_sum_keys (l : list (Key * Q)) :
  map row_key (groupby_sum l) = sort_keys (unique_keys (map fst l)).
Proof.
  unfold groupby_sum. rewrite map_map. simpl. apply map_id.
Qed.

Lemma groupby_sum_keys_NoDup (l : list (Key * Q)) :
  List.NoDup (map row_key (groupby_sum l)).
Proof.
  rewrite groupby_sum_keys.
  apply (Permutation_NoDup (l := unique_keys (map fst l))).
  - symmetry. apply sort_keys_perm.
  - apply unique_keys_NoDup.
Qed.

Lemma groupby_sum_In (l : list (Key * Q)) (k : Key) (v : Q) :
  In (k, v) (groupby_sum l)
  <-> In k (map fst l) /\ v = Qsum (map snd (group k l)).
Proof.
  unfold groupby_sum. rewrite in_map_iff. split.
  - intros (k' & [= -> <-] & Hk).
    apply (Permutation_in _ (sort_keys_perm _)) in Hk.
    apply (proj1 (unique_keys_In _ _)) in Hk. auto.
  - intros [Hk ->]. exists k. split; [reflexivity|].
    apply (Permutation_in _ (Permutation_sym (sort_keys_perm _))).
    now apply unique_keys_In.
Qed.

Lemma groupby_sum_nil : groupby_sum [] = [].
Proof. reflexivity. Qed.

Lemma Qsum_app (l1 l2 : list Q) : (Qsum (l1 ++ l2) == Qsum l1 + Qsum l2)%Q.
Proof.
  induction l1 as [|x t IH]; simpl.
  - now rewrite Qplus_0_l.
  - rewrite IH. apply Qplus_assoc.
Qed.

Lemma Qsum_perm (l1 l2 : list Q) : Permutation l1 l2 -> (Qsum l1 == Qsum l2)%Q.
Proof.
  induction 1 as [|x l1 l2 _ IH|x y l|l1 l2 l3 _ IH1 _ IH2]; simpl.
  - reflexivity.
  - now rewrite IH.
  - rewrite !Qplus_assoc. now rewrite (Qplus_comm y x).
  - now rewrite IH1.
Qed.

Lemma Qsum_map_ext {A} (f g : A -> Q) (l : list A) :
  (forall x, In x l -> (f x == g x)%Q) -> (Qsum (map f l) == Qsum (map g l))%Q.
Proof.
  induction l as [|x t IH]; simpl; intros Hfg.
  - reflexivity.
  - rewrite (Hfg x (or_introl eq_refl)), IH; [reflexivity|].
    intros y Hy. apply Hfg. now right.
Qed.

Lemma Qsum_map_plus {A} (f g : A -> Q) (l : list A) :
  (Qsum (map (fun x => f x + g x) l) == Qsum (map f l) + Qsum (map g l))%Q.
Proof.
  induction l as [|x t IH]; simpl.
  - now rewrite Qplus_0_l.
  - rewrite IH. ring.
Qed.

Lemma Qsum_map_zero {A} (l : list A) : (Qsum (map (fun _ => 0) l) == 0)%Q.
Proof.
  induction l as [|x t IH]; simpl.
  - reflexivity.
  - rewrite IH. ring.
Qed.

(** Over a duplicate-free list of keys that holds [k0], the indicator of
    [k0] sums to the value. *)
Lemma Qsum_indicator (k0 : Key) (v : Q) (ks : list Key) :
  List.NoDup ks -> In k0 ks ->
  (Qsum (map (fun k => if key_eqb k0 k then v else 0) ks) == v)%Q.
Proof.
  induction 1 as [|k ks Hk Hnd IH]; simpl; intros Hin.
  - contradiction.
  - destruct Hin as [->|Hin].
    + rewrite key_eqb_refl.
      rewrite (Qsum_map_ext _ (fun _ => 0%Q)).
      * rewrite Qsum_map_zero. ring.
      * intros k Hkin. destruct (key_eqb k0 k) eqn:E; [|reflexivity].
        apply key_eqb_eq in E. subst. contradiction.
    + destruct (key_eqb k0 k) eqn:E.
      * apply key_eqb_eq in E. subst. contradiction.
      * rewrite (IH Hin). ring.
Qed.

(** Summing the groups of all keys gives the sum of the column. *)
Lemma Qsum_groups (ks : list Key) (l : list (Key * Q)) :
  List.NoDup ks -> (forall k, In k (map fst l) -> In k ks) ->
  (Qsum (map (fun k => Qsum (map snd (group k l))) ks) == Qsum (map snd l))%Q.
Proof.
  intros Hnd. induction l as [|[k0 v] t IH]; intros Hin.
  - simpl. apply Qsum_map_zero.
  - rewrite (Qsum_map_ext _
      (fun k => (if key_eqb k0 k then v else 0) + Qsum (map snd (group k t)))%Q).
    + rewrite Qsum_map_plus, IH.
      * rewrite Qsum_indicator; [reflexivity|exact Hnd|].
        apply Hin. now left.
      * intros k Hk. apply Hin. now right.
    + intros k _. unfold group. simpl.
      destruct (key_eqb k0 k); simpl; ring.
Qed.

Lemma groupby_sum_total (l : list (Key * Q)) :
  (Qsum (map row_area (groupby_sum l)) == Qsum (map snd l))%Q.
Proof.
  unfold groupby_sum. rewrite map_map. simpl.
  rewrite (Qsum_perm _ (map (fun k => Qsum (map snd (group k l)))
                            (unique_keys (map fst l)))).
  - apply Qsum_groups.
    + apply unique_keys_NoDup.
    + intros k. apply unique_keys_In.
  - apply Permutation_map, sort_keys_perm.
Qed.

End PandasFacts.

(** ** The spatial query and the overlap analysis *)

Module SpatialQueryFacts.
Import Pandas PandasFacts SpatialQueryAnalysis.

Lemma filter_sublist {A} (f : A -> bool) (l : list A) : sublist (List.filter f l) l.
Proof.
  induction l as [|x t IH]; simpl.
  - constructor.
  - destruct (f x); now constructor.
Qed.

Lemma mask_select {A} (f : A -> bool) (l : list A) :
  map fst (List.filter snd (combine l (map f l))) = List.filter f l.
Proof.
  induction l as [|x t IH]; simpl.
  - reflexivity.
  - destruct (f x); simpl; now rewrite IH.
Qed.

Lemma filter_all {A} (f : A -> bool) (l : list A) :
  (forall x, In x l -> f x = true) -> List.filter f l = l.
Proof.
  induction l as [|x t IH]; simpl; intros Hall.
  - reflexivity.
  - rewrite (Hall x (or_introl eq_refl)), IH; [reflexivity|].
    intros y Hy. apply Hall. now right.
Qed.

Lemma filter_none {A} (f : A -> bool) (l : list A) :
  (forall x, In x l -> f x = false) -> List.filter f l = [].
Proof.
  induction l as [|x t IH]; simpl; intros Hall.
  - reflexivity.
  - rewrite (Hall x (or_introl eq_refl)). apply IH.
    intros y Hy. apply Hall. now right.
Qed.

Lemma filter_map_pair {A B} (p : A * B -> bool) (x : A) (l' : list B) :
  List.filter p (map (fun y => (x, y)) l')
  = map (pair x) (List.filter (fun y => p (x, y)) l').
Proof.
  induction l' as [|y t' IH']; simpl.
  - reflexivity.
  - destruct (p (x, y)); simpl; now rewrite IH'.
Qed.

Lemma filter_list_prod {A B} (p : A * B -> bool) (l : list A) (l' : list B) :
  List.filter p (list_prod l l')
  = flat_map (fun x => map (pair x) (List.filter (fun y => p (x, y)) l')) l.
Proof.
  induction l as [|x t IH]; simpl.
  - reflexivity.
  - now rewrite List.filter_app, IH, filter_map_pair.
Qed.

Lemma map_flat_map {A B C} (h : B -> C) (f : A -> list B) (l : list A) :
  map h (flat_map f l) = flat_map (fun x => map h (f x)) l.
Proof.
  induction l as [|x t IH]; simpl.
  - reflexivity.
  - now rewrite map_app, IH.
Qed.

Lemma flat_map_map {A B C} (f : B -> list C) (g : A -> B) (l : list A) :
  flat_map f (map g l) = flat_map (fun x => f (g x)) l.
Proof.
  induction l as [|x t IH]; simpl.
  - reflexivity.
  - now rewrite IH.
Qed.

Lemma Qsum_map_const {A} (v : Q) (l : list A) :
  (Qsum (map (fun _ => v) l) == inject_Z (Z.of_nat (length l)) * v)%Q.
Proof.
  induction l as [|x t IH].
  - simpl. ring.
  - cbn [map length Qsum fold_right]. fold (Qsum (map (fun _ => v) t)).
    rewrite IH, Nat2Z.inj_succ. unfold Z.succ. rewrite inject_Z_plus. ring.
Qed.

Lemma Qsum_map_le {A} (f g : A -> Q) (l : list A) :
  (forall x, In x l -> (f x <= g x)%Q) -> (Qsum (map f l) <= Qsum (map g l))%Q.
Proof.
  induction l as [|x t IH]; simpl; intros Hle.
  - apply Qle_refl.
  - apply Qplus_le_compat.
    + apply Hle. now left.
    + apply IH. intros y Hy. apply Hle. now right.
Qed.

Lemma Qsum_map_lt {A} (f g : A -> Q) (l : list A) :
  (forall x, In x l -> (f x <= g x)%Q) ->
  (exists x, In x l /\ (f x < g x)%Q) ->
  (Qsum (map f l) < Qsum (map g l))%Q.
Proof.
  induction l as [|x t IH]; simpl; intros Hle (y & Hy & Hlt).
  - contradiction.
  - destruct Hy as [<-|Hy].
    + apply Qplus_lt_le_compat; [exact Hlt|].
      apply Qsum_map_le. intros z Hz. apply Hle. now right.
    + rewrite (Qplus_comm (f x)), (Qplus_comm (g x)).
      apply Qplus_lt_le_compat.
      * apply IH; [|now exists y]. intros z Hz. apply Hle. now right.
      * apply Hle. now left.
Qed.

Section WithGeometry.
Context {G CRS : Type} `{Geometry G CRS}.

(** *** [perform_spatial_query] *)

Lemma boolean_index_mask {A} (gdf : GeoDataFrame G CRS A) (f : Feature G A -> bool) :
  boolean_index gdf (map f (rows gdf))
  = {| crs := crs gdf; rows := List.filter f (rows gdf) |}.
Proof. unfold boolean_index. now rewrite mask_select. Qed.

(** A selector that is none of the three leaves [mask] unbound. *)
Lemma unrecognized_operation_unbound_mask {A}
    (gdf : GeoDataFrame G CRS A) (target_geometry : G) (operation : string) :
  operation <> "intersects" -> operation <> "within" -> operation <> "contains" ->
  perform_spatial_query gdf target_geometry operation = Raise (UnboundLocalError "mask").
Proof.
  intros H1 H2 H3. unfold perform_spatial_query.
  apply String.eqb_neq in H1, H2, H3. now rewrite H1, H2, H3.
Qed.

(** C7: for each of the three selectors the query returns the rows whose
    geometry stands in the selected relation to the target, in the order
    of the input: the result is a sublist of the input rows, with the
    frame's CRS, and holds a row exactly when the relation holds for it.
    With [intersects] and a target that contains every input geometry the
    input frame itself is returned. *)
Theorem perform_spatial_query_subsequence {A}
    (gdf : GeoDataFrame G CRS A) (target_geometry : G)
    (operation : string) (relation : G -> G -> bool) :
  (operation = "intersects" /\ relation = intersects)
  \/ (operation = "within" /\ relation = within)
  \/ (operation = "contains" /\ relation = contains) ->
  exists result,
    perform_spatial_query gdf target_geometry operation = Ok result
    /\ crs result = crs gdf
    /\ rows result = List.filter (fun r => relation (geometry r) target_geometry) (rows gdf)
    /\ sublist (rows result) (rows gdf)
    /\ (forall r, In r (rows result)
                  <-> In r (rows gdf) /\ relation (geometry r) target_geometry = true)
    /\ (operation = "intersects" -> GeometryLaws G CRS ->
        (forall r, In r (rows gdf) -> contains target_geometry (geometry r) = true) ->
        result = gdf).
Proof.
  intros Hop.
  exists {| crs := crs gdf;
            rows := List.filter (fun r => relation (geometry r) target_geometry) (rows gdf) |}.
  split.
  { unfold perform_spatial_query.
    destruct Hop as [[-> ->]|[[-> ->]|[-> ->]]]; simpl;
      now rewrite boolean_index_mask. }
  split; [reflexivity|]. split; [reflexivity|]. simpl.
  split; [apply filter_sublist|]. split.
  { intros r. apply filter_In. }
  intros -> Hlaws Hall.
  destruct Hop as [[_ ->]|[[Habs _]|[Habs _]]]; try discriminate.
  destruct gdf as [c rs]. simpl in *. f_equal.
  apply filter_all. intros r Hr.
  apply (within_intersects Hlaws). rewrite <- (contains_within Hlaws).
  now apply Hall.
Qed.

(** *** [analyze_polygonal_overlap] *)

Lemma matched_pairs_flat_map
    (admin : GeoDataFrame G CRS Admin) (land : GeoDataFrame G CRS LandUse) :
  matched_pairs admin land
  = flat_map (fun f =>
      map (pair (reproject (crs land) (crs admin) f))
          (List.filter (fun r => intersects (transform (crs land) (crs admin) (geometry f))
                                            (geometry r))
             (rows admin)))
    (rows land).
Proof.
  unfold matched_pairs. rewrite filter_list_prod. simpl.
  now rewrite flat_map_map.
Qed.

(** The frame that is grouped holds one row per matched pair, with the
    pair's key and the hectares of the feature. *)
Lemma analyze_as_matched_pairs
    (admin : GeoDataFrame G CRS Admin) (land : GeoDataFrame G CRS LandUse) :
  analyze_polygonal_overlap admin land
  = groupby_sum (map (fun p => (pair_key p, hectares (fst p))) (matched_pairs admin land)).
Proof.
  unfold analyze_polygonal_overlap. f_equal.
  rewrite matched_pairs_flat_map. simpl.
  rewrite !map_map, flat_map_map, !map_flat_map.
  apply flat_map_ext. intros f. now rewrite !map_map.
Qed.

Lemma matched_pairs_In
    (admin : GeoDataFrame G CRS Admin) (land : GeoDataFrame G CRS LandUse)
    (p : Feature G LandUse * Feature G Admin) :
  In p (matched_pairs admin land)
  <-> exists f, In f (rows land)
        /\ fst p = reproject (crs land) (crs admin) f
        /\ In (snd p) (rows admin)
        /\ intersects (transform (crs land) (crs admin) (geometry f)) (geometry (snd p)) = true.
Proof.
  rewrite matched_pairs_flat_map, in_flat_map. split.
  - intros (f & Hf & Hp). apply in_map_iff in Hp.
    destruct Hp as (r & <- & Hr). apply filter_In in Hr.
    exists f. simpl. tauto.
  - intros (f & Hf & Hfst & Hr & Hint). exists f. split; [exact Hf|].
    apply in_map_iff. exists (snd p). split.
    + rewrite <- Hfst. now destruct p.
    + apply filter_In. tauto.
Qed.


Lemma analyze_row_In
    (admin : GeoDataFrame G CRS Admin) (land : GeoDataFrame G CRS LandUse)
    (k : Key) (v : Q) :
  In (k, v) (analyze_polygonal_overlap admin land)
  <-> (exists p, In p (matched_pairs admin land) /\ pair_key p = k)
      /\ v = Qsum (map snd (group k (map (fun p => (pair_key p, hectares (fst p)))
                                        (matched_pairs admin land)))).
Proof.
  rewrite analyze_as_matched_pairs, groupby_sum_In, map_map. simpl.
  rewrite in_map_iff. firstorder.
Qed.

Lemma group_area_matched_pairs
    (admin : GeoDataFrame G CRS Admin) (land : GeoDataFrame G CRS LandUse) (k : Key) :
  Qsum (map snd (group k (map (fun p => (pair_key p, hectares (fst p)))
                            (matched_pairs admin land))))
  = spec_group_area admin land k.
Proof.
  unfold spec_group_area, group.
  induction (matched_pairs admin land) as [|p t IH]; simpl.
  - reflexivity.
  - destruct (key_eqb (pair_key p) k); simpl; now rewrite IH.
Qed.

(** C3: the feature layer is brought to the CRS of the admin regions; the
    summary has one row per distinct (region name, category label) that
    some region and some feature realise with intersecting geometries (the
    feature's geometry taken after reprojection), and the value of the
    row is the sum, over those matched pairs, of the feature's geometry
    area divided by 10000. *)
Theorem analyze_groups_matched_pairs
    (admin : GeoDataFrame G CRS Admin) (land : GeoDataFrame G CRS LandUse) :
  let summary := analyze_polygonal_overlap admin land in
  crs (to_crs land (crs admin)) = crs admin
  /\ List.NoDup (map row_key summary)
  /\ (forall n c,
        (exists v, In (n, c, v) summary)
        <-> exists f r,
              In f (rows land) /\ In r (rows admin)
              /\ intersects (transform (crs land) (crs admin) (geometry f)) (geometry r) = true
              /\ province_name (attributes r) = n
              /\ landuse_type (attributes f) = c)
  /\ (forall n c v,
        In (n, c, v) summary -> (v == spec_group_area admin land (n, c))%Q).
Proof.
  intros summary. unfold summary.
  split; [reflexivity|]. split.
  { rewrite analyze_as_matched_pairs. apply groupby_sum_keys_NoDup. }
  split.
  - intros n c. split.
    + intros (v & Hv). apply analyze_row_In in Hv.
      destruct Hv as ((p & Hp & Hkey) & _).
      apply matched_pairs_In in Hp. destruct Hp as (f & Hf & Hfst & Hr & Hint).
      exists f, (snd p). unfold pair_key in Hkey. rewrite Hfst in Hkey.
      simpl in Hkey. injection Hkey as Hn Hc. auto.
    + intros (f & r & Hf & Hr & Hint & Hn & Hc).
      eexists. apply analyze_row_In. split; [|reflexivity].
      exists (reproject (crs land) (crs admin) f, r). split.
      * apply matched_pairs_In. exists f. simpl. auto.
      * unfold pair_key. simpl. now rewrite Hn, Hc.
  - intros n c v Hv. apply analyze_row_In in Hv. destruct Hv as (_ & ->).
    now rewrite group_area_matched_pairs.
Qed.

(** On frames that carry a CRS and the grouped columns, an empty
    collection on either side gives the empty summary. *)
Theorem analyze_empty_collection
    (admin : GeoDataFrame G CRS Admin) (land : GeoDataFrame G CRS LandUse) :
  rows admin = [] \/ rows land = [] ->
  analyze_polygonal_overlap admin land = [].
Proof.
  intros Hempty. rewrite analyze_as_matched_pairs.
  assert (Hnil : matched_pairs admin land = []).
  { rewrite matched_pairs_flat_map. destruct Hempty as [-> | ->].
    - simpl. induction (rows land) as [|f t IH]; simpl; auto.
    - reflexivity. }
  now rewrite Hnil.
Qed.

Lemma matched_pairs_app
    (admin : GeoDataFrame G CRS Admin) (src : CRS) (l1 l2 : list (Feature G LandUse)) :
  matched_pairs admin {| crs := src; rows := l1 ++ l2 |}
  = matched_pairs admin {| crs := src; rows := l1 |}
    ++ matched_pairs admin {| crs := src; rows := l2 |}.
Proof. rewrite !matched_pairs_flat_map. simpl. apply flat_map_app. Qed.

Lemma matched_pairs_single
    (admin : GeoDataFrame G CRS Admin) (src : CRS) (f : Feature G LandUse) :
  matched_pairs admin {| crs := src; rows := [f] |}
  = map (pair (reproject src (crs admin) f))
        (List.filter (fun r => intersects (transform src (crs admin) (geometry f)) (geometry r))
           (rows admin)).
Proof. rewrite matched_pairs_flat_map. simpl. apply app_nil_r. Qed.

(** A feature that intersects no region leaves the summary as it is
    without the feature. *)
Lemma analyze_drops_unmatched
    (admin : GeoDataFrame G CRS Admin) (src : CRS)
    (l1 l2 : list (Feature G LandUse)) (f : Feature G LandUse) :
  regions_hit admin src f = 0%nat ->
  analyze_polygonal_overlap admin {| crs := src; rows := l1 ++ f :: l2 |}
  = analyze_polygonal_overlap admin {| crs := src; rows := l1 ++ l2 |}.
Proof.
  intros Hzero. rewrite !analyze_as_matched_pairs. f_equal. f_equal.
  rewrite !matched_pairs_app. f_equal.
  change (f :: l2) with ([f] ++ l2). rewrite matched_pairs_app, matched_pairs_single.
  unfold regions_hit in Hzero. apply length_zero_iff_nil in Hzero.
  now rewrite Hzero.
Qed.

(** The pairs of one feature: as many as the regions it intersects. *)
Lemma matched_pairs_count
    (admin : GeoDataFrame G CRS Admin) (src : CRS) (f : Feature G LandUse) :
  length (matched_pairs admin {| crs := src; rows := [f] |}) = regions_hit admin src f.
Proof. rewrite matched_pairs_single, length_map. reflexivity. Qed.

(** The areas of the summary add up to the area of every feature times
    the number of regions it intersects. *)
Lemma analyze_total
    (admin : GeoDataFrame G CRS Admin) (land : GeoDataFrame G CRS LandUse) :
  (Qsum (map row_area (analyze_polygonal_overlap admin land))
   == Qsum (map (fun f => inject_Z (Z.of_nat (regions_hit admin (crs land) f))
                          * (area (transform (crs land) (crs admin) (geometry f)) / 10000))
              (rows land)))%Q.
Proof.
  rewrite analyze_as_matched_pairs, groupby_sum_total, map_map. simpl.
  destruct land as [src fs]. simpl.
  induction fs as [|f t IH].
  - reflexivity.
  - change (f :: t) with ([f] ++ t) at 1.
    rewrite matched_pairs_app, map_app, Qsum_app, IH.
    cbn [map Qsum fold_right]. apply Qplus_inj_r.
    rewrite matched_pairs_single, map_map. simpl.
    unfold hectares, regions_hit. simpl. apply Qsum_map_const.
Qed.


Lemma filter_filter_length {A} (p q : A -> bool) (l : list A) :
  length (List.filter q (List.filter p l))
  = length (List.filter (fun x => p x && q x) l).
Proof.
  induction l as [|x t IH]; simpl.
  - reflexivity.
  - destruct (p x); simpl; [destruct (q x); simpl; now rewrite IH | exact IH].
Qed.

(** The group of a key among the pairs of one feature: the regions of
    that name, when the category is the feature's. *)
Lemma group_of_one_feature (n c category : string) (v : Q) (regions : list (Feature G Admin)) :
  (Qsum (map snd (group (n, c)
                    (map (fun r => ((province_name (attributes r), category), v)) regions)))
   == if String.eqb category c
      then inject_Z (Z.of_nat (length (List.filter
                                         (fun r => String.eqb (province_name (attributes r)) n)
                                         regions))) * v
      else 0)%Q.
Proof.
  unfold group, key_eqb. induction regions as [|r t IH]; simpl.
  - destruct (String.eqb category c); ring.
  - destruct (String.eqb (province_name (attributes r)) n) eqn:En;
      destruct (String.eqb category c) eqn:Ec; simpl; rewrite ?Ec in IH.
    + cbn [map Qsum fold_right snd]. fold (Qsum (map snd (List.filter
        (fun r0 : Key * Q => String.eqb (fst (fst r0)) n && String.eqb (snd (fst r0)) c)
        (map (fun r0 => ((province_name (attributes r0), category), v)) t)))).
      rewrite IH, Nat2Z.inj_succ. unfold Z.succ. rewrite inject_Z_plus. ring.
    + exact IH.
    + exact IH.
    + exact IH.
Qed.

(** The value of a group, feature by feature. *)
Lemma group_area_by_feature
    (admin : GeoDataFrame G CRS Admin) (land : GeoDataFrame G CRS LandUse) (n c : string) :
  (Qsum (map snd (group (n, c) (map (fun p => (pair_key p, hectares (fst p)))
                                  (matched_pairs admin land))))
   == Qsum (map (fun f =>
                   if String.eqb (landuse_type (attributes f)) c
                   then inject_Z (Z.of_nat
                                    (OverlapCounts.regions_hit_named admin (crs land) n f))
                        * (area (transform (crs land) (crs admin) (geometry f)) / 10000)
                   else 0)
              (rows land)))%Q.
Proof.
  destruct land as [src fs]. simpl. induction fs as [|f t IH].
  - reflexivity.
  - change (f :: t) with ([f] ++ t) at 1.
    rewrite matched_pairs_app, map_app. unfold group at 1.
    rewrite List.filter_app, map_app, Qsum_app. fold (group (n, c)).
    rewrite IH. cbn [map Qsum fold_right]. apply Qplus_inj_r.
    rewrite matched_pairs_single, map_map. unfold pair_key, hectares. simpl.
    etransitivity; [apply (group_of_one_feature n c (landuse_type (attributes f)))|].
    destruct (String.eqb (landuse_type (attributes f)) c); [|reflexivity].
    unfold OverlapCounts.regions_hit_named. now rewrite filter_filter_length.
Qed.

(** C4: a feature that intersects no region adds nothing to the summary.
    A feature that intersects a region puts a row for the region's name
    and its own category into the summary, and no row exists without such
    a pair; the value of the row for (name, category) is the sum, over the
    features of the category, of the feature's area times the number of
    regions of that name it intersects, so a feature is counted once in
    the row of each region it intersects.  Hence the areas of the summary
    add up to each feature's area times the number of regions it
    intersects, and when every feature lies in some region and one of
    positive area lies in two, the total is larger than the area of the
    layer. *)
Theorem join_counts_once_per_region
    (admin : GeoDataFrame G CRS Admin) (land : GeoDataFrame G CRS LandUse) :
  let hit := regions_hit admin (crs land) in
  let hit_named := OverlapCounts.regions_hit_named admin (crs land) in
  let ha := fun f => (area (transform (crs land) (crs admin) (geometry f)) / 10000)%Q in
  let summary := analyze_polygonal_overlap admin land in
  let total := Qsum (map row_area summary) in
  (forall l1 f l2,
      rows land = l1 ++ f :: l2 -> hit f = 0%nat ->
      summary = analyze_polygonal_overlap admin {| crs := crs land; rows := l1 ++ l2 |})
  /\ (forall n c,
        (exists v, In (n, c, v) summary)
        <-> exists f r,
              In f (rows land) /\ In r (rows admin)
              /\ intersects (transform (crs land) (crs admin) (geometry f)) (geometry r) = true
              /\ province_name (attributes r) = n
              /\ landuse_type (attributes f) = c)
  /\ (forall n c v,
        In (n, c, v) summary ->
        (v == Qsum (map (fun f => if String.eqb (landuse_type (attributes f)) c
                                  then inject_Z (Z.of_nat (hit_named n f)) * ha f
                                  else 0)
                      (rows land)))%Q)
  /\ (total == Qsum (map (fun f => inject_Z (Z.of_nat (hit f)) * ha f) (rows land)))%Q
  /\ ((forall f, In f (rows land) -> (0 <= ha f)%Q /\ (1 <= hit f)%nat) ->
      (exists f, In f (rows land) /\ (0 < ha f)%Q /\ (2 <= hit f)%nat) ->
      (raw_total_ha (crs admin) land < total)%Q).
Proof.
  intros hit hit_named ha summary total.
  assert (Htotal : (total == Qsum (map (fun f => inject_Z (Z.of_nat (hit f)) * ha f)
                                    (rows land)))%Q) by apply analyze_total.
  split.
  { intros l1 f l2 Hrows Hzero. unfold summary.
    destruct land as [src fs]. simpl in *. subst fs.
    now apply analyze_drops_unmatched. }
  split.
  { intros n c. unfold summary. split.
    - intros (v & Hv). apply analyze_row_In in Hv.
      destruct Hv as ((p & Hp & Hkey) & _).
      apply matched_pairs_In in Hp. destruct Hp as (f & Hf & Hfst & Hr & Hint).
      exists f, (snd p). unfold pair_key in Hkey. rewrite Hfst in Hkey.
      simpl in Hkey. injection Hkey as Hn Hc. auto.
    - intros (f & r & Hf & Hr & Hint & Hn & Hc).
      eexists. apply analyze_row_In. split; [|reflexivity].
      exists (reproject (crs land) (crs admin) f, r). split.
      + apply matched_pairs_In. exists f. simpl. auto.
      + unfold pair_key. simpl. now rewrite Hn, Hc. }
  split.
  { intros n c v Hv. unfold summary in Hv. apply analyze_row_In in Hv.
    destruct Hv as (_ & ->). apply group_area_by_feature. }
  split; [exact Htotal|].
  intros Hall (f & Hf & Hpos & Htwo). rewrite Htotal. unfold raw_total_ha.
  apply Qsum_map_lt.
  - intros x Hx. destruct (Hall x Hx) as [Hnn Hone]. fold (ha x).
    assert (Hq : (1 <= inject_Z (Z.of_nat (hit x)))%Q).
    { change 1%Q with (inject_Z 1). rewrite <- Zle_Qle. lia. }
    nra.
  - exists f. split; [exact Hf|]. fold (ha f).
    assert (Hq : (2 <= inject_Z (Z.of_nat (hit f)))%Q).
    { change 2%Q with (inject_Z 2). rewrite <- Zle_Qle. lia. }
    nra.
Qed.

End WithGeometry.
End SpatialQueryFacts.

(** ** The scenarios on points and boxes *)

Module PlanarFacts.
Import Pandas PandasFacts SpatialQueryAnalysis SpatialQueryFacts Planar.

Lemma Qlt_bool_iff (a b : Q) : Qlt_bool a b = true <-> (a < b)%Q.
Proof.
  unfold Qlt_bool. rewrite negb_true_iff. split.
  - intros Hle. apply Qnot_le_lt. intros Hba.
    apply Qle_bool_iff in Hba. congruence.
  - intros Hlt. destruct (Qle_bool b a) eqn:E; [|reflexivity].
    apply Qle_bool_iff in E. exfalso. apply (Qlt_not_le _ _ Hlt E).
Qed.

Ltac bools_to_props :=
  repeat match goal with
         | H : _ && _ = true |- _ => apply andb_true_iff in H; destruct H
         | H : Qle_bool _ _ = true |- _ => apply Qle_bool_iff in H
         | H : Qlt_bool _ _ = true |- _ => apply Qlt_bool_iff in H
         | H : Qeq_bool _ _ = true |- _ => apply Qeq_bool_iff in H
         | |- _ && _ = true => apply andb_true_iff; split
         | |- Qle_bool _ _ = true => apply Qle_bool_iff
         | |- Qeq_bool _ _ = true => apply Qeq_bool_iff
         end.

Lemma shape_within_intersects (a b : Shape) :
  shape_within a b = true -> shape_intersects a b = true.
Proof.
  destruct a, b; simpl; intros Hw; try discriminate;
    bools_to_props; try assumption; lra.
Qed.

Lemma geographic_laws : GeometryLaws Shape Geographic.
Proof.
  split.
  - reflexivity.
  - exact shape_within_intersects.
Qed.

Lemma projected_laws : GeometryLaws Shape LocalGrid.
Proof.
  split.
  - reflexivity.
  - exact shape_within_intersects.
Qed.

(** C1 (as the code behaves): the summary is computed from the geometry,
    whatever [area_ha] the features carry.  The point feature has area 0,
    so its row is ("DKI Jakarta", "Urban", 0); two forest parcels whose
    geometries measure 1 000 000 and 500 000 square metres in the one
    region R give the single row (R, "Forest", 150). *)
Theorem scenario_summaries_from_geometry :
  summary_eq (analyze_polygonal_overlap jakarta_admin urban_point)
             [("DKI Jakarta", "Urban", 0%Q)]
  /\ (forall stated1 stated2,
        summary_eq (analyze_polygonal_overlap region_R (forest_parcels stated1 stated2))
                   [("R", "Forest", 150%Q)]).
Proof.
  split.
  - repeat constructor.
  - intros stated1 stated2. repeat constructor.
Qed.

(** C1, counterexample: in the point scenario the summary is not
    [("DKI Jakarta", "Urban", 20.0)]; the stated 20 hectares of the feature
    do not reach the result. *)
Lemma point_scenario_not_20 :
  ~ summary_eq (analyze_polygonal_overlap jakarta_admin urban_point)
               [("DKI Jakarta", "Urban", 20%Q)].
Proof.
  intros Heq. inversion Heq as [|r1 r2 l1 l2 [_ Harea] _]; subst.
  vm_compute in Harea. discriminate.
Qed.

(** C2 (as the code behaves): with the selector [touches] the query raises
    the error of the unbound local [mask]; it is no [ValueError], and its
    text does not hold the selector. *)
Theorem touches_raises_unbound_local :
  perform_spatial_query urban_point (box 106 (-7) 108 (-6)) "touches"
  = Raise (UnboundLocalError "mask").
Proof. reflexivity. Qed.

Lemma perform_spatial_query_subsequence_witness :
  perform_spatial_query urban_point (box 106 (-7) 108 (-6)) "intersects" = Ok urban_point.
Proof.
  destruct (perform_spatial_query_subsequence urban_point (box 106 (-7) 108 (-6))
              "intersects" intersects (or_introl (conj eq_refl eq_refl)))
    as (result & Hrun & _ & _ & _ & _ & Hfull).
  rewrite Hrun. f_equal. apply Hfull.
  - reflexivity.
  - exact geographic_laws.
  - intros r [<-|[]]. reflexivity.
Defined.

Lemma analyze_empty_collection_witness :
  analyze_polygonal_overlap {| crs := EPSG4326; rows := [] |} urban_point = []
  /\ analyze_polygonal_overlap jakarta_admin {| crs := EPSG4326; rows := [] |} = [].
Proof.
  split.
  - apply analyze_empty_collection. left. reflexivity.
  - apply analyze_empty_collection. right. reflexivity.
Defined.

(** The parcels delivered in kilometres are measured in the metres of the
    region layer. *)
Lemma analyze_groups_matched_pairs_witness :
  exists v, In ("R", "Forest", v) (analyze_polygonal_overlap region_R forest_parcels_km)
            /\ (v == 150)%Q.
Proof.
  destruct (analyze_groups_matched_pairs region_R forest_parcels_km)
    as (_ & _ & Hrows & Hsum).
  destruct (proj2 (Hrows "R" "Forest")) as [v Hv].
  - exists {| geometry := box 1 1 2 2;
              attributes := {| landuse_type := "Forest"; area_ha := 100 |} |},
           {| geometry := box 0 0 5000 5000;
              attributes := {| province_name := "R" |} |}.
    repeat split; left; reflexivity.
  - exists v. split; [exact Hv|].
    rewrite (Hsum "R" "Forest" v Hv). reflexivity.
Defined.

Lemma join_counts_once_per_region_witness :
  analyze_polygonal_overlap two_regions {| crs := Metres; rows := [border_parcel; far_parcel] |}
  = analyze_polygonal_overlap two_regions border_layer
  /\ (exists v, In ("East", "Forest", v) (analyze_polygonal_overlap two_regions border_layer)
                /\ (v == 100)%Q)
  /\ (exists v, In ("West", "Forest", v) (analyze_polygonal_overlap two_regions border_layer)
                /\ (v == 100)%Q)
  /\ (raw_total_ha Metres border_layer
      < Qsum (map row_area (analyze_polygonal_overlap two_regions border_layer)))%Q.
Proof.
  split.
  { destruct (join_counts_once_per_region two_regions
                {| crs := Metres; rows := [border_parcel; far_parcel] |}) as (Hdrop & _).
    apply (Hdrop [border_parcel] far_parcel []); reflexivity. }
  destruct (join_counts_once_per_region two_regions border_layer)
    as (_ & Hrows & Hvalue & _ & Hmore).
  split; [|split].
  - destruct (proj2 (Hrows "East" "Forest")) as [v Hv].
    { exists border_parcel,
             {| geometry := box 5000 0 10000 5000;
                attributes := {| province_name := "East" |} |}.
      split; [now left|]. split; [right; now left|]. repeat split. }
    exists v. split; [exact Hv|]. rewrite (Hvalue _ _ _ Hv). reflexivity.
  - destruct (proj2 (Hrows "West" "Forest")) as [v Hv].
    { exists border_parcel,
             {| geometry := box 0 0 5000 5000;
                attributes := {| province_name := "West" |} |}.
      split; [now left|]. split; [now left|]. repeat split. }
    exists v. split; [exact Hv|]. rewrite (Hvalue _ _ _ Hv). reflexivity.
  - apply Hmore.
    + intros f [<-|[]]. split; [discriminate | vm_compute; repeat constructor].
    + exists border_parcel. split; [now left|].
      split; [reflexivity | vm_compute; repeat constructor].
Defined.

End PlanarFacts.

(** ** Further properties of the spatial query and the overlap analysis *)

Module SpatialQueryMore.
Import Pandas PandasFacts SpatialQueryAnalysis SpatialQueryFacts.

Lemma key_leb_total (a b : Key) : key_leb a b = false -> key_leb b a = true.
Proof.
  unfold key_leb.
  rewrite (String.compare_antisym (fst a) (fst b)).
  rewrite (String.compare_antisym (snd a) (snd b)).
  destruct (String.compare (fst b) (fst a)); simpl; try congruence.
  destruct (String.compare (snd b) (snd a)); simpl; congruence.
Qed.

Lemma insert_key_hd (k : Key) (l : list Key) (x : Key) :
  HdRel (fun a b => key_leb a b = true) x l -> key_leb x k = true ->
  HdRel (fun a b => key_leb a b = true) x (insert_key k l).
Proof.
  intros Hl Hk. destruct l as [|h t]; simpl.
  - now constructor.
  - destruct (key_leb k h); constructor; [exact Hk|].
    now inversion Hl.
Qed.

Lemma insert_key_sorted (k : Key) (l : list Key) :
  Sorted (fun a b => key_leb a b = true) l ->
  Sorted (fun a b => key_leb a b = true) (insert_key k l).
Proof.
  induction 1 as [|h t Ht IH Hhd]; simpl.
  - repeat constructor.
  - destruct (key_leb k h) eqn:E.
    + constructor; [now constructor|]. now constructor.
    + constructor; [exact IH|].
      apply insert_key_hd; [exact Hhd|]. now apply key_leb_total.
Qed.

Lemma sort_keys_sorted (l : list Key) :
  Sorted (fun a b => key_leb a b = true) (sort_keys l).
Proof.
  induction l as [|k t IH]; simpl.
  - constructor.
  - now apply insert_key_sorted.
Qed.

Lemma Qsum_nonneg (l : list Q) :
  (forall x, In x l -> (0 <= x)%Q) -> (0 <= Qsum l)%Q.
Proof.
  induction l as [|x t IH]; simpl; intros Hall.
  - apply Qle_refl.
  - assert (0 <= x)%Q by (apply Hall; now left).
    assert (0 <= Qsum t)%Q by (apply IH; intros y Hy; apply Hall; now right).
    lra.
Qed.

Section WithGeometry.
Context {G CRS : Type} `{Geometry G CRS}.

Lemma perform_spatial_query_rows {A}
    (gdf result : GeoDataFrame G CRS A) (target_geometry : G) (operation : string) :
  perform_spatial_query gdf target_geometry operation = Ok result ->
  exists relation : G -> G -> bool,
    (forall gdf' : GeoDataFrame G CRS A,
        perform_spatial_query gdf' target_geometry operation
        = Ok {| crs := crs gdf';
                rows := List.filter (fun r => relation (geometry r) target_geometry)
                          (rows gdf') |}).
Proof.
  unfold perform_spatial_query. intros Hrun.
  destruct (String.eqb operation "intersects").
  { exists intersects. intros gdf'. now rewrite boolean_index_mask. }
  destruct (String.eqb operation "within").
  { exists within. intros gdf'. now rewrite boolean_index_mask. }
  destruct (String.eqb operation "contains").
  { exists contains. intros gdf'. now rewrite boolean_index_mask. }
  discriminate.
Qed.

Lemma filter_filter_same {A} (f : A -> bool) (l : list A) :
  List.filter f (List.filter f l) = List.filter f l.
Proof.
  induction l as [|x t IH]; simpl.
  - reflexivity.
  - destruct (f x) eqn:E; simpl; [rewrite E|]; now rewrite ?IH.
Qed.

Lemma filter_filter_swap {A} (f g : A -> bool) (l : list A) :
  List.filter f (List.filter g l) = List.filter g (List.filter f l).
Proof.
  induction l as [|x t IH]; simpl.
  - reflexivity.
  - destruct (f x) eqn:Ef, (g x) eqn:Eg; simpl; rewrite ?Ef, ?Eg, ?IH; reflexivity.
Qed.

(** Querying the result of a query again, with the same target and
    selector, changes nothing. *)
Theorem perform_spatial_query_idempotent {A}
    (gdf result : GeoDataFrame G CRS A) (target_geometry : G) (operation : string) :
  perform_spatial_query gdf target_geometry operation = Ok result ->
  perform_spatial_query result target_geometry operation = Ok result.
Proof.
  intros Hrun. destruct (perform_spatial_query_rows _ _ _ _ Hrun) as [rel Hrel].
  rewrite Hrel in Hrun. injection Hrun as <-. rewrite Hrel. simpl.
  now rewrite filter_filter_same.
Qed.

(** Two queries in a row select the same rows in either order. *)
Theorem perform_spatial_query_commute {A}
    (gdf r1 r12 : GeoDataFrame G CRS A) (t1 t2 : G) (op1 op2 : string) :
  perform_spatial_query gdf t1 op1 = Ok r1 ->
  perform_spatial_query r1 t2 op2 = Ok r12 ->
  exists r2,
    perform_spatial_query gdf t2 op2 = Ok r2
    /\ perform_spatial_query r2 t1 op1 = Ok r12.
Proof.
  intros H1 H2.
  destruct (perform_spatial_query_rows _ _ _ _ H1) as [rel1 Hrel1].
  destruct (perform_spatial_query_rows _ _ _ _ H2) as [rel2 Hrel2].
  rewrite Hrel1 in H1. injection H1 as <-.
  rewrite Hrel2 in H2. injection H2 as <-. simpl.
  eexists. split; [apply Hrel2|]. rewrite Hrel1. simpl.
  now rewrite filter_filter_swap.
Qed.

(** The summary depends on the land-use layer through its CRS, its
    geometries and its categories only: the [area_ha] column that a layer
    brings along has no influence. *)
Theorem analyze_ignores_stated_area
    (admin : GeoDataFrame G CRS Admin) (land1 land2 : GeoDataFrame G CRS LandUse) :
  crs land1 = crs land2 ->
  Forall2 (fun f1 f2 => geometry f1 = geometry f2
                        /\ landuse_type (attributes f1) = landuse_type (attributes f2))
          (rows land1) (rows land2) ->
  analyze_polygonal_overlap admin land1 = analyze_polygonal_overlap admin land2.
Proof.
  intros Hcrs Hrows. rewrite !analyze_as_matched_pairs. f_equal.
  rewrite !matched_pairs_flat_map, !map_flat_map, <- Hcrs.
  induction Hrows as [|f1 f2 l1 l2 [Hg Hc] _ IH]; simpl.
  - reflexivity.
  - rewrite IH. f_equal. rewrite !map_map, Hg. apply map_ext.
    intros r. unfold pair_key, hectares. simpl. now rewrite Hg, Hc.
Qed.

(** The rows of the summary come in ascending order of (region name,
    category label). *)
Theorem analyze_rows_sorted
    (admin : GeoDataFrame G CRS Admin) (land : GeoDataFrame G CRS LandUse) :
  Sorted (fun a b => key_leb a b = true)
         (map row_key (analyze_polygonal_overlap admin land)).
Proof.
  rewrite analyze_as_matched_pairs, groupby_sum_keys. apply sort_keys_sorted.
Qed.

(** When no feature of the layer has a negative area (measured in the CRS
    of the regions), no row of the summary has. *)
Theorem analyze_areas_nonnegative
    (admin : GeoDataFrame G CRS Admin) (land : GeoDataFrame G CRS LandUse) :
  (forall f, In f (rows land) ->
             (0 <= area (transform (crs land) (crs admin) (geometry f)))%Q) ->
  forall row, In row (analyze_polygonal_overlap admin land) -> (0 <= row_area row)%Q.
Proof.
  intros Harea [k v] Hrow. apply analyze_row_In in Hrow. destruct Hrow as [_ ->].
  simpl. apply Qsum_nonneg. intros x Hx.
  apply in_map_iff in Hx. destruct Hx as ([k' v'] & <- & Hin).
  apply filter_In in Hin. destruct Hin as [Hin _].
  apply in_map_iff in Hin. destruct Hin as (p & [= _ <-] & Hp).
  apply matched_pairs_In in Hp. destruct Hp as (f & Hf & Hfst & _).
  unfold hectares. rewrite Hfst. simpl. specialize (Harea f Hf).
  apply Qle_shift_div_l; [reflexivity|]. lra.
Qed.

(** When every feature intersects exactly one region, the areas of the
    summary add up to the area of the layer. *)
Theorem analyze_total_on_partition
    (admin : GeoDataFrame G CRS Admin) (land : GeoDataFrame G CRS LandUse) :
  (forall f, In f (rows land) -> regions_hit admin (crs land) f = 1%nat) ->
  (Qsum (map row_area (analyze_polygonal_overlap admin land))
   == raw_total_ha (crs admin) land)%Q.
Proof.
  intros Hone. rewrite analyze_total. unfold raw_total_ha.
  apply Qsum_map_ext. intros f Hf. rewrite (Hone f Hf). simpl. ring.
Qed.

Lemma join_size (gdf1 : GeoDataFrame G CRS LandUse) (gdf2 : GeoDataFrame G CRS Admin) :
  length (rows (sjoin gdf1 gdf2))
  = length (List.filter (fun p => intersects (geometry (fst p)) (geometry (snd p)))
              (list_prod (rows gdf1) (rows gdf2))).
Proof.
  unfold sjoin. simpl. induction (rows gdf1) as [|l t IH]; simpl.
  - reflexivity.
  - rewrite length_app, List.filter_app, length_app, IH, filter_map_pair, !length_map.
    reflexivity.
Qed.

End WithGeometry.

Import Planar Examples.

Lemma unrecognized_operation_unbound_mask_witness :
  perform_spatial_query urban_point (box 106 (-7) 108 (-6)) "Intersects"
  = Raise (UnboundLocalError "mask").
Proof.
  apply unrecognized_operation_unbound_mask; discriminate.
Defined.

Lemma perform_spatial_query_idempotent_witness :
  perform_spatial_query inside_only (box 0 0 10 10) "within" = Ok inside_only.
Proof.
  apply (perform_spatial_query_idempotent two_points). reflexivity.
Defined.

Lemma perform_spatial_query_commute_witness :
  exists r2,
    perform_spatial_query two_points (Point 5 5) "intersects" = Ok r2
    /\ perform_spatial_query r2 (box 0 0 10 10) "within" = Ok inside_only.
Proof.
  apply (perform_spatial_query_commute two_points inside_only); reflexivity.
Defined.

Lemma analyze_ignores_stated_area_witness :
  analyze_polygonal_overlap region_R (forest_parcels 1 2)
  = analyze_polygonal_overlap region_R (forest_parcels 100 50).
Proof.
  apply analyze_ignores_stated_area; [reflexivity|].
  repeat constructor.
Defined.

Lemma analyze_areas_nonnegative_witness :
  Forall (fun row => (0 <= row_area row)%Q)
         (analyze_polygonal_overlap region_R forest_parcels_km).
Proof.
  apply List.Forall_forall. apply analyze_areas_nonnegative.
  intros f [<-|[<-|[]]]; discriminate.
Defined.

Lemma analyze_total_on_partition_witness :
  (Qsum (map row_area (analyze_polygonal_overlap region_R (forest_parcels 100 50)))
   == raw_total_ha Metres (forest_parcels 100 50))%Q.
Proof.
  apply (analyze_total_on_partition region_R (forest_parcels 100 50)).
  intros f [<-|[<-|[]]]; reflexivity.
Defined.

End SpatialQueryMore.

(** ** The loader *)

Module DataIngestFacts.
Import SpatialQueryAnalysis DataIngest.

Lemma endswith_cons (c : Ascii.ascii) (t suffix : string) :
  endswith (String c t) suffix
  = if String.eqb (String c t) suffix then true else endswith t suffix.
Proof. reflexivity. Qed.

Lemma endswith_refl (s : string) : endswith s s = true.
Proof.
  destruct s as [|c t]; [reflexivity|].
  now rewrite endswith_cons, String.eqb_refl.
Qed.

(** [endswith] holds exactly of the strings that end with the suffix. *)
Lemma endswith_iff (s suffix : string) :
  endswith s suffix = true <-> exists p, s = (p ++ suffix)%string.
Proof.
  split.
  - induction s as [|c t IH].
    + simpl. destruct suffix; [|discriminate]. intros _. now exists "".
    + rewrite endswith_cons.
      destruct (String.eqb (String c t) suffix) eqn:E.
      * apply String.eqb_eq in E. intros _. now exists "".
      * intros Ht. destruct (IH Ht) as [p ->]. now exists (String c p).
  - intros [p ->]. induction p as [|c p IH].
    + apply endswith_refl.
    + change (String c p ++ suffix)%string with (String c (p ++ suffix)).
      rewrite endswith_cons, IH. now destruct (String.eqb _ _).
Qed.

Section WithGeometry.
Context {G CRS A : Type} `{Geometry G CRS}.
Context (epsg4326 : CRS).
Context (read_file : string -> option string -> Result (FileFrame G CRS A)).

Lemma load_unfold (data_path : string) (layer_name : option string) :
  load_indonesian_data epsg4326 read_file data_path layer_name
  = match read_file data_path
            (if endswith data_path ".gpkg" && layer_given layer_name
             then layer_name else None) with
    | Raise e => Raise e
    | Ok file =>
        Ok match file_crs file with
           | None => {| crs := epsg4326; rows := file_rows file |}
           | Some c => to_crs {| crs := c; rows := file_rows file |} epsg4326
           end
    end.
Proof.
  unfold load_indonesian_data.
  destruct (endswith data_path ".gpkg" && layer_given layer_name);
    destruct (read_file _ _) as [file|e]; simpl; try reflexivity;
    now destruct (file_crs file).
Qed.

(** Whatever the file declares, a loaded frame is in EPSG:4326 and has
    the file's records with their columns: when the file declares no CRS
    the coordinates are taken as they are, otherwise every geometry is
    transformed from the declared CRS. *)
Theorem load_normalises_crs
    (data_path : string) (layer_name : option string) (gdf : GeoDataFrame G CRS A) :
  load_indonesian_data epsg4326 read_file data_path layer_name = Ok gdf ->
  crs gdf = epsg4326
  /\ exists layer file,
       read_file data_path layer = Ok file
       /\ map attributes (rows gdf) = map attributes (file_rows file)
       /\ (file_crs file = None -> rows gdf = file_rows file)
       /\ (forall c, file_crs file = Some c ->
             map geometry (rows gdf)
             = map (fun f => transform c epsg4326 (geometry f)) (file_rows file)).
Proof.
  rewrite load_unfold.
  destruct (read_file data_path _) as [file|e] eqn:Hread; [|discriminate].
  intros [= <-]. split; [now destruct (file_crs file)|].
  eexists; exists file. split; [exact Hread|].
  destruct (file_crs file) as [c|]; simpl.
  - split; [now rewrite map_map|]. split; [discriminate|].
    intros c' [= <-]. now rewrite map_map.
  - split; [reflexivity|]. split; [reflexivity|]. discriminate.
Qed.

(** The layer name reaches the reader only for a path ending in [.gpkg]
    and a non-empty name; in every other call it is ignored. *)
Theorem load_layer_only_for_gpkg
    (data_path : string) (layer_name : option string) :
  (forall p, data_path <> (p ++ ".gpkg")%string) \/ layer_name = Some "" ->
  load_indonesian_data epsg4326 read_file data_path layer_name
  = load_indonesian_data epsg4326 read_file data_path None.
Proof.
  intros Hcase. rewrite !load_unfold.
  assert (Hsel : endswith data_path ".gpkg" && layer_given layer_name = false).
  { destruct Hcase as [Hpath | ->].
    - destruct (endswith data_path ".gpkg") eqn:E; [|reflexivity].
      apply endswith_iff in E. destruct E as [p Hp]. now destruct (Hpath p).
    - apply andb_false_r. }
  rewrite Hsel. now rewrite andb_false_r.
Qed.



End WithGeometry.

Import Planar Examples.

Lemma load_normalises_crs_witness :
  exists gdf,
    load_indonesian_data Degrees disk "batas.shp" None = Ok gdf
    /\ crs gdf = Degrees
    /\ map geometry (rows gdf) = [box (6390 / 60) (-384 / 60) (6420 / 60) (-366 / 60)].
Proof.
  eexists. split; [reflexivity|].
  destruct (load_normalises_crs Degrees disk "batas.shp" None _ eq_refl)
    as (Hcrs & layer & file & Hread & _ & _ & Hgeo).
  split; [exact Hcrs|]. reflexivity.
Defined.

Lemma load_layer_only_for_gpkg_witness :
  load_indonesian_data Degrees disk "igt.gpkg" (Some "")
  = load_indonesian_data Degrees disk "igt.gpkg" None.
Proof.
  apply (load_layer_only_for_gpkg Degrees disk "igt.gpkg" (Some "")).
  right. reflexivity.
Defined.


End DataIngestFacts.

(** ** The sample data *)

Module SampleDataFacts.
Import Planar SampleData.

Lemma province_geometry_cases (prov_code : string) (geom : Shape) :
  province_geometry prov_code = Some geom ->
  exists r minx miny maxx maxy,
    In r (rows provinces_gdf)
    /\ PROV_CODE (attributes r) = prov_code
    /\ geometry r = geom
    /\ geom = box minx miny maxx maxy
    /\ (minx < maxx)%Q /\ (miny < maxy)%Q.
Proof.
  unfold province_geometry.
  destruct (List.filter _ (rows provinces_gdf)) as [|r t] eqn:Hsel; [discriminate|].
  intros [= <-].
  assert (Hin : In r (List.filter
                        (fun r => String.eqb (PROV_CODE (attributes r)) prov_code)
                        (rows provinces_gdf))) by (rewrite Hsel; now left).
  apply filter_In in Hin. destruct Hin as [Hin Hcode].
  apply String.eqb_eq in Hcode. exists r.
  destruct Hin as [<-|[<-|[<-|[<-|[]]]]]; do 4 eexists;
    (split; [simpl; auto 10|]);
    (split; [exact Hcode|]); repeat split.
Qed.

Lemma province_geometry_found (prov_code : string) :
  In prov_code (map (fun r => PROV_CODE (attributes r)) (rows provinces_gdf)) ->
  exists geom, province_geometry prov_code = Some geom.
Proof.
  simpl. intros [<-|[<-|[<-|[<-|[]]]]]; eexists; reflexivity.
Qed.

Section WithRandom.
Context {RNG : Type}.
Context (seed : Z -> RNG).
Context (uniform : Q -> Q -> RNG -> Q * RNG).
Context (choice : list string -> RNG -> string * RNG).

Lemma sample_feature_appends (prov_code : string) (i : nat) (geom : Shape)
    (l : list (Feature Shape SampleLandUse)) (rng : RNG) :
  province_geometry prov_code = Some geom ->
  exists f rng',
    sample_feature uniform choice prov_code i (l, rng) = Some (l ++ [f], rng')
    /\ sampled uniform choice (prov_code, i) f.
Proof.
  intros Hgeom. unfold sample_feature. rewrite Hgeom. simpl.
  destruct (bounds geom) as [[[minx miny] maxx] maxy] eqn:Hb.
  destruct (uniform minx maxx rng) as [x rng1] eqn:Hx.
  destruct (uniform miny maxy rng1) as [y rng2] eqn:Hy.
  destruct (choice _ rng2) as [lu rng3] eqn:Hc.
  destruct (uniform 10%Q 1000%Q rng3) as [a rng4] eqn:Ha.
  eexists; eexists. split; [reflexivity|].
  split; [reflexivity|]. simpl.
  exists geom, rng, rng1, rng2, rng3.
  rewrite Hb, Hx, Hy, Hc, Ha. auto.
Qed.

Lemma for_each_cons {X S : Type} (body : X -> S -> option S) (x : X) (xs : list X) (st : S) :
  for_each body (x :: xs) st
  = match body x st with
    | Some st' => for_each body xs st'
    | None => None
    end.
Proof. reflexivity. Qed.

Lemma inner_loop (prov_code : string) (geom : Shape) (indices : list nat) :
  province_geometry prov_code = Some geom ->
  forall l rng,
  exists fs rng',
    for_each (sample_feature uniform choice prov_code) indices (l, rng) = Some (l ++ fs, rng')
    /\ Forall2 (sampled uniform choice) (map (pair prov_code) indices) fs.
Proof.
  intros Hgeom. induction indices as [|i t IH]; intros l rng.
  - exists [], rng. rewrite app_nil_r. split; [reflexivity|constructor].
  - rewrite for_each_cons.
    destruct (sample_feature_appends prov_code i geom l rng Hgeom) as (f & rng1 & -> & Hf).
    destruct (IH (l ++ [f]) rng1) as (fs & rng' & -> & Hfs).
    exists (f :: fs), rng'. rewrite <- app_assoc. split; [reflexivity|].
    simpl. now constructor.
Qed.

Lemma outer_loop (codes : list string) (indices : list nat) :
  (forall c, In c codes -> exists geom, province_geometry c = Some geom) ->
  forall l rng,
  exists fs rng',
    for_each (fun prov_code => for_each (sample_feature uniform choice prov_code) indices)
             codes (l, rng) = Some (l ++ fs, rng')
    /\ Forall2 (sampled uniform choice) (list_prod codes indices) fs.
Proof.
  induction codes as [|c t IH]; intros Hfound l rng.
  - exists [], rng. rewrite app_nil_r. split; [reflexivity|constructor].
  - rewrite for_each_cons.
    destruct (Hfound c (or_introl eq_refl)) as [geom Hgeom].
    destruct (inner_loop c geom indices Hgeom l rng) as (fs1 & rng1 & -> & H1).
    destruct (IH (fun c' Hc' => Hfound c' (or_intror Hc')) (l ++ fs1) rng1)
      as (fs2 & rng2 & -> & H2).
    exists (fs1 ++ fs2), rng2. rewrite <- app_assoc. split; [reflexivity|].
    simpl. now apply Forall2_app.
Qed.

(** The loops never fail, and the land-use layer holds, position by
    position, what the body makes of each (province, index). *)
Lemma create_sample_data_rows :
  exists land,
    create_sample_data seed uniform choice = Some (provinces_gdf, land)
    /\ crs land = EPSG4326
    /\ Forall2 (sampled uniform choice) slots (rows land).
Proof.
  unfold create_sample_data.
  destruct (outer_loop (map (fun r => PROV_CODE (attributes r)) (rows provinces_gdf))
              (seq 0 (num_points / 4)) province_geometry_found [] (seed 42))
    as (fs & rng' & Hrun & Hfs).
  rewrite Hrun. simpl. eexists. split; [reflexivity|]. split; [reflexivity|exact Hfs].
Qed.

(** Whatever the generator draws, [create_sample_data] returns the four
    provinces and a land-use layer in EPSG:4326 of 48 features, twelve per
    province and not the 50 of [num_points]; their ids are
    [LU_<code>_<index>], all different. *)
Theorem create_sample_data_shape :
  exists land,
    create_sample_data seed uniform choice = Some (provinces_gdf, land)
    /\ crs land = EPSG4326
    /\ length (rows land) = 48%nat
    /\ map (fun f => id (attributes f)) (rows land)
       = map (fun slot => ("LU_" ++ fst slot ++ "_" ++ str (snd slot))%string) slots
    /\ List.NoDup (map (fun f => id (attributes f)) (rows land)).
Proof.
  destruct create_sample_data_rows as (land & Hrun & Hcrs & Hrows).
  exists land. split; [exact Hrun|]. split; [exact Hcrs|].
  assert (Hids : map (fun f => id (attributes f)) (rows land)
                 = map (fun slot => ("LU_" ++ fst slot ++ "_" ++ str (snd slot))%string) slots).
  { clear Hrun. induction Hrows as [|slot f ss fs [Hid _] _ IH]; simpl.
    - reflexivity.
    - now rewrite Hid, IH. }
  split.
  { rewrite <- (Forall2_length _ _ _ Hrows). reflexivity. }
  split; [exact Hids|].
  rewrite Hids. apply NoDup_ListNoDup. apply (bool_decide_unpack _).
  vm_compute. reflexivity.
Qed.

Lemma sampled_located (slot : string * nat) (f : Feature Shape SampleLandUse) :
  uniform_in_range uniform -> choice_from_list choice ->
  sampled uniform choice slot f ->
  (exists r, In r (rows provinces_gdf)
             /\ PROV_CODE (attributes r) = fst slot
             /\ intersects (CRS := Geographic) (geometry f) (geometry r) = true)
  /\ In (landuse_type (columns (attributes f)))
        ["Forest"; "Agriculture"; "Urban"; "Water"]
  /\ (10 <= area_ha (columns (attributes f)))%Q
  /\ (area_ha (columns (attributes f)) < 1000)%Q.
Proof.
  intros Huniform Hchoice (_ & geom & r1 & r2 & r3 & r4 & Hgeom & Hpoint & Hlu & Harea).
  destruct (province_geometry_cases _ _ Hgeom)
    as (r & minx & miny & maxx & maxy & Hr & Hcode & Hg & -> & Hx & Hy).
  simpl in Hpoint. split; [|split].
  - exists r. split; [exact Hr|]. split; [exact Hcode|].
    rewrite Hpoint, Hg. simpl.
    destruct (Huniform minx maxx r1 Hx) as [Hx1 Hx2].
    destruct (Huniform miny maxy r2 Hy) as [Hy1 Hy2].
    rewrite !andb_true_iff, !Qle_bool_iff.
    repeat split; try assumption; now apply Qlt_le_weak.
  - rewrite Hlu. apply Hchoice. discriminate.
  - rewrite Harea. apply Huniform. reflexivity.
Qed.

(** With a generator that keeps its promises, every sampled point lies in
    the box of the province it was drawn for, its category is one of the
    four, and its [area_ha] lies in [[10, 1000)]. *)
Theorem create_sample_data_in_province :
  uniform_in_range uniform -> choice_from_list choice ->
  exists land,
    create_sample_data seed uniform choice = Some (provinces_gdf, land)
    /\ Forall2 (fun slot f =>
                  (exists r, In r (rows provinces_gdf)
                             /\ PROV_CODE (attributes r) = fst slot
                             /\ intersects (CRS := Geographic) (geometry f) (geometry r) = true)
                  /\ In (landuse_type (columns (attributes f)))
                        ["Forest"; "Agriculture"; "Urban"; "Water"]
                  /\ (10 <= area_ha (columns (attributes f)))%Q
                  /\ (area_ha (columns (attributes f)) < 1000)%Q)
               slots (rows land).
Proof.
  intros Huniform Hchoice.
  destruct create_sample_data_rows as (land & Hrun & _ & Hrows).
  exists land. split; [exact Hrun|].
  eapply Forall2_impl; [exact Hrows|].
  intros slot f Hsampled. now apply sampled_located.
Qed.

End WithRandom.

Lemma midpoint_in_range : uniform_in_range midpoint.
Proof.
  intros low high rng Hlt. unfold midpoint. simpl. split.
  - apply Qle_shift_div_l; [reflexivity|]. lra.
  - apply Qlt_shift_div_r; [reflexivity|]. lra.
Qed.

Lemma first_choice_from_list : choice_from_list first_choice.
Proof.
  intros l rng Hl. unfold first_choice. simpl.
  destruct l as [|x t]; [contradiction|now left].
Qed.

Lemma create_sample_data_in_province_witness :
  exists land,
    create_sample_data counter_seed midpoint first_choice = Some (provinces_gdf, land)
    /\ length (rows land) = 48%nat.
Proof.
  destruct (create_sample_data_in_province counter_seed midpoint first_choice
              midpoint_in_range first_choice_from_list) as (land & Hrun & Hrows).
  exists land. split; [exact Hrun|].
  rewrite <- (Forall2_length _ _ _ Hrows). reflexivity.
Defined.

End SampleDataFacts.

(** ** Further properties of the pipeline configuration *)

Module PipelineMore.
Import Pipeline PipelineFacts.

Lemma pipeline_on_merged (config : option (gmap string Val)) :
  main_execution_pipeline config
  = let m := merge_config config in
    match m !! "use_sample_data" with
    | None => Raise (KeyError "use_sample_data")
    | Some u =>
        if truthy u then
          match m !! "database" with
          | None => Raise (KeyError "database")
          | Some database =>
              match subscript database "database" with
              | Raise e => Raise e
              | Ok _ =>
                  match subscript database "host" with
                  | Raise e => Raise e
                  | Ok _ =>
                      match m !! "analysis" with
                      | None => Raise (KeyError "analysis")
                      | Some analysis =>
                          match subscript analysis "connection_radius_km" with
                          | Raise e => Raise e
                          | Ok _ =>
                              match subscript analysis "place_name" with
                              | Raise e => Raise e
                              | Ok _ => Ok {| output_config := m; status := "success" |}
                              end
                          end
                      end
                  end
              end
          end
        else Raise (ValueError
                      "Real data loading not configured. Set use_sample_data=True for demo.")
    end.
Proof.
  unfold main_execution_pipeline, getitem. simpl.
  generalize (merge_config config) as m. intros m.
  destruct (m !! "use_sample_data") as [u|]; simpl; [|reflexivity].
  destruct (truthy u); [|reflexivity].
  destruct (m !! "database") as [database|]; simpl; [|reflexivity].
  destruct (subscript database "database"); simpl; [|reflexivity].
  destruct (subscript database "host"); simpl; [|reflexivity].
  destruct (m !! "analysis") as [analysis|]; simpl; [|reflexivity].
  destruct (subscript analysis "connection_radius_km"); simpl; [|reflexivity].
  destruct (subscript analysis "place_name"); reflexivity.
Qed.

Lemma subscript_Ok (v r : Val) (k : string) :
  subscript v k = Ok r <-> exists d, v = VDict d /\ d !! k = Some r.
Proof.
  split.
  - destruct v as [| | | |d]; simpl; try discriminate. unfold getitem.
    destruct (d !! k) as [x|] eqn:E; [|discriminate]. intros [= <-]. now exists d.
  - intros (d & -> & Hk). simpl. unfold getitem. now rewrite Hk.
Qed.

(** The pipeline succeeds exactly when the merged configuration has a
    truthy [use_sample_data], a [database] mapping with [database] and
    [host], and an [analysis] mapping with [connection_radius_km] and
    [place_name]; it then returns the merged configuration with status
    [success]. *)
Theorem pipeline_succeeds_iff
    (config : option (gmap string Val)) (results : PipelineOutput) :
  main_execution_pipeline config = Ok results
  <-> results = {| output_config := merge_config config; status := "success" |}
      /\ (exists u, merge_config config !! "use_sample_data" = Some u /\ truthy u = true)
      /\ (exists database v1 v2,
            merge_config config !! "database" = Some (VDict database)
            /\ database !! "database" = Some v1 /\ database !! "host" = Some v2)
      /\ (exists analysis v1 v2,
            merge_config config !! "analysis" = Some (VDict analysis)
            /\ analysis !! "connection_radius_km" = Some v1
            /\ analysis !! "place_name" = Some v2).
Proof.
  rewrite pipeline_on_merged. cbv zeta.
  generalize (merge_config config) as m. intros m. split.
  - destruct (m !! "use_sample_data") as [u|]; [|discriminate].
    destruct (truthy u) eqn:Hu; [|discriminate].
    destruct (m !! "database") as [database|]; [|discriminate].
    destruct (subscript database "database") as [v1|] eqn:H1; [|discriminate].
    destruct (subscript database "host") as [v2|] eqn:H2; [|discriminate].
    destruct (m !! "analysis") as [analysis|]; [|discriminate].
    destruct (subscript analysis "connection_radius_km") as [v3|] eqn:H3; [|discriminate].
    destruct (subscript analysis "place_name") as [v4|] eqn:H4; [|discriminate].
    intros [= <-]. split; [reflexivity|]. split; [now exists u|].
    apply subscript_Ok in H1, H2, H3, H4.
    destruct H1 as (d1 & -> & H1), H2 as (d2 & [= <-] & H2).
    destruct H3 as (d3 & -> & H3), H4 as (d4 & [= <-] & H4).
    split; [now exists d1, v1, v2 | now exists d3, v3, v4].
  - intros (-> & (u & -> & ->) & (db & v1 & v2 & -> & H1 & H2)
               & (an & v3 & v4 & -> & H3 & H4)).
    simpl. unfold getitem. now rewrite H1, H2, H3, H4.
Qed.

Lemma my_config_sections (args : Namespace) :
  my_config args !! "use_sample_data" = Some (VBool true)
  /\ my_config args !! "database" = None
  /\ exists analysis place,
       my_config args !! "analysis" = Some (VDict analysis)
       /\ analysis !! "target_province" = Some (VStr (province args))
       /\ analysis !! "connection_radius_km" = Some (VInt 150)
       /\ analysis !! "place_name" = Some place.
Proof.
  split; [|split].
  - unfold my_config. rewrite lookup_insert_eq. now rewrite or_bool_true.
  - unfold my_config. now rewrite !lookup_insert_ne by discriminate.
  - eexists; eexists.
    split; [unfold my_config; rewrite lookup_insert_ne by discriminate;
            apply lookup_insert_eq|].
    split; [apply lookup_insert_eq|].
    split; [rewrite lookup_insert_ne by discriminate; apply lookup_insert_eq|].
    rewrite !lookup_insert_ne by discriminate. apply lookup_insert_eq.
Qed.

Lemma merged_cli_config (args : Namespace) (k : string) (v : Val) :
  my_config args !! k = Some v -> merge_config (Some (my_config args)) !! k = Some v.
Proof.
  intros Hk. rewrite (merge_config_nonempty _ _ _ Hk). unfold update.
  now apply lookup_union_Some_l.
Qed.

Lemma cli_pipeline_run (args : Namespace) :
  main_execution_pipeline (Some (my_config args))
  = Ok {| output_config := merge_config (Some (my_config args)); status := "success" |}.
Proof.
  destruct (my_config_sections args)
    as (Huse & Hdb & analysis & place & Han & _ & Hcr & Hpl).
  rewrite pipeline_on_merged. cbv zeta.
  rewrite (merged_cli_config _ _ _ Huse), (merge_config_lookup_default _ _ Hdb),
    (merged_cli_config _ _ _ Han). simpl.
  unfold getitem. rewrite Hcr, Hpl. reflexivity.
Qed.

(** With the configuration that the entry point builds, the pipeline
    succeeds for every parsed command line: the database section is the
    default one, and the analysis section is the one of the command line,
    with a connection radius of 150. *)
Theorem cli_config_pipeline_succeeds (args : Namespace) :
  let merged := merge_config (Some (my_config args)) in
  main_execution_pipeline (Some (my_config args))
  = Ok {| output_config := merged; status := "success" |}
  /\ merged !! "database" = default_config !! "database"
  /\ merged !! "use_sample_data" = Some (VBool true)
  /\ exists analysis,
       merged !! "analysis" = Some (VDict analysis)
       /\ analysis !! "target_province" = Some (VStr (province args))
       /\ analysis !! "connection_radius_km" = Some (VInt 150).
Proof.
  intros merged. unfold merged.
  destruct (my_config_sections args)
    as (Huse & Hdb & analysis & place & Han & Htp & Hcr & _).
  split; [apply cli_pipeline_run|].
  split; [now apply merge_config_lookup_default|].
  split; [now apply merged_cli_config|].
  exists analysis. split; [now apply merged_cli_config|]. auto.
Qed.

(** A caller who sets [use_sample_data] to a false value gets the
    [ValueError] of phase 1, whatever else the configuration holds. *)
Theorem pipeline_rejects_real_data (config : gmap string Val) (v : Val) :
  config !! "use_sample_data" = Some v -> truthy v = false ->
  main_execution_pipeline (Some config)
  = Raise (ValueError "Real data loading not configured. Set use_sample_data=True for demo.").
Proof.
  intros Hv Hfalse. rewrite pipeline_on_merged. cbv zeta.
  rewrite (merge_config_nonempty _ _ _ Hv). unfold update.
  rewrite (lookup_union_Some_l _ _ _ _ Hv). now rewrite Hfalse.
Qed.

(** A top-level key that the caller leaves out keeps its default, and the
    merged configuration has the keys of the caller and of the defaults,
    no others; unknown keys of the caller are kept, not rejected. *)
Theorem merge_keeps_unset_defaults (config : gmap string Val) (k : string) :
  (config !! k = None -> merge_config (Some config) !! k = default_config !! k)
  /\ (is_Some (merge_config (Some config) !! k)
      <-> is_Some (config !! k) \/ is_Some (default_config !! k)).
Proof.
  split; [apply merge_config_lookup_default|].
  destruct (config !! k) as [v|] eqn:Hk.
  - rewrite (merge_config_nonempty _ _ _ Hk). unfold update.
    rewrite (lookup_union_Some_l _ _ _ _ Hk). split; eauto.
  - rewrite (merge_config_lookup_default _ _ Hk). split; [auto|].
    intros [[x Hx]|H]; [discriminate|exact H].
Qed.

Lemma pipeline_succeeds_iff_witness :
  main_execution_pipeline None
  = Ok {| output_config := default_config; status := "success" |}.
Proof.
  apply (pipeline_succeeds_iff None). split; [reflexivity|].
  split; [exists (VBool true); split; reflexivity|].
  split; do 3 eexists; repeat split; reflexivity.
Defined.

Lemma pipeline_rejects_real_data_witness :
  main_execution_pipeline (Some (<["use_sample_data" := VBool false]> ∅))
  = Raise (ValueError "Real data loading not configured. Set use_sample_data=True for demo.").
Proof.
  apply (pipeline_rejects_real_data _ (VBool false)); reflexivity.
Defined.

Lemma merge_keeps_unset_defaults_witness :
  merge_config (Some override_province) !! "database" = default_config !! "database".
Proof.
  apply (merge_keeps_unset_defaults override_province "database"). reflexivity.
Defined.

End PipelineMore.

(** ** The module runners and the entry point *)

Module CliFacts.
Import Planar SampleData SampleDataFacts Pipeline PipelineMore Cli.
Import SpatialQueryAnalysis SpatialQueryFacts.

Section WithFrames.
Context {G CRS A1 A2 : Type} `{Geometry G CRS}.

Lemma inner_count (geom1 : G) (rows2 : list (Feature G A2)) (count : Z) :
  fold_left (fun count geom2 => if intersects geom1 geom2 then (count + 1)%Z else count)
            (map geometry rows2) count
  = (count + Z.of_nat (length (List.filter (fun r => intersects geom1 (geometry r)) rows2)))%Z.
Proof.
  revert count. induction rows2 as [|r t IH]; intros count; simpl.
  - lia.
  - rewrite IH. destruct (intersects geom1 (geometry r)); simpl; lia.
Qed.

Lemma outer_count (rows1 : list (Feature G A1)) (rows2 : list (Feature G A2)) (count : Z) :
  fold_left (fun count geom1 =>
               fold_left (fun count geom2 =>
                            if intersects geom1 geom2 then (count + 1)%Z else count)
                         (map geometry rows2) count)
            (map geometry rows1) count
  = (count + Z.of_nat (length (List.filter
                                 (fun p => intersects (geometry (fst p)) (geometry (snd p)))
                                 (list_prod rows1 rows2))))%Z.
Proof.
  revert count. induction rows1 as [|r t IH]; intros count; simpl.
  - lia.
  - rewrite IH, inner_count, List.filter_app, length_app, filter_map_pair, length_map.
    simpl. lia.
Qed.

Lemma run_spatial_analysis_intersects
    (gdf1 : GeoDataFrame G CRS A1) (gdf2 : GeoDataFrame G CRS A2) :
  run_spatial_analysis gdf1 gdf2 "intersects"
  = {[ "intersection_count" :=
         VInt (Z.of_nat (length (List.filter
                                   (fun p => intersects (geometry (fst p)) (geometry (snd p)))
                                   (list_prod (rows gdf1) (rows gdf2))))) ]}.
Proof. unfold run_spatial_analysis. simpl. now rewrite outer_count. Qed.

(** With the selector [intersects] the runner counts the pairs of a
    record of the first frame and a record of the second whose geometries
    intersect; the count is at most the product of the two sizes.  With
    any other selector it evaluates no geometry and reports completion. *)
Theorem run_spatial_analysis_counts
    (gdf1 : GeoDataFrame G CRS A1) (gdf2 : GeoDataFrame G CRS A2) :
  let pairs := List.filter (fun p => intersects (geometry (fst p)) (geometry (snd p)))
                 (list_prod (rows gdf1) (rows gdf2)) in
  run_spatial_analysis gdf1 gdf2 "intersects"
  = {[ "intersection_count" := VInt (Z.of_nat (length pairs)) ]}
  /\ (length pairs <= length (rows gdf1) * length (rows gdf2))%nat
  /\ (forall operation, operation <> "intersects" ->
        run_spatial_analysis gdf1 gdf2 operation
        = {[ "status" := VStr "analysis_completed" ]}).
Proof.
  intros pairs. split; [|split].
  - apply run_spatial_analysis_intersects.
  - unfold pairs. rewrite <- length_prod. apply List.filter_length_le.
  - intros operation Hop. unfold run_spatial_analysis.
    apply String.eqb_neq in Hop. now rewrite Hop.
Qed.

End WithFrames.

Section JoinSize.
Context {G CRS : Type} `{Geometry G CRS}.

Lemma reproject_unchanged {A} (src dst : CRS) (l : list (Feature G A)) :
  (forall f, In f l -> transform src dst (geometry f) = geometry f) ->
  map (reproject src dst) l = l.
Proof.
  induction l as [|f t IH]; simpl; intros Hsame.
  - reflexivity.
  - rewrite IH by (intros g Hg; apply Hsame; now right).
    f_equal. unfold reproject. rewrite (Hsame f (or_introl eq_refl)). now destruct f.
Qed.

(** The runner does not reproject.  Applied to the land-use layer brought
    to the CRS of the regions, as [analyze_polygonal_overlap] brings it,
    its count is the number of rows of the join that the analysis builds;
    applied to the layer as it is, it gives that number when the
    reprojection leaves the geometries of the layer unchanged. *)
Theorem intersection_count_is_join_size
    (land : GeoDataFrame G CRS LandUse) (admin : GeoDataFrame G CRS Admin) :
  let reprojected := to_crs land (crs admin) in
  let joined := sjoin reprojected admin in
  run_spatial_analysis reprojected admin "intersects"
  = {[ "intersection_count" := VInt (Z.of_nat (length (rows joined))) ]}
  /\ length (rows joined) = length (matched_pairs admin land)
  /\ ((forall f, In f (rows land) ->
                 transform (crs land) (crs admin) (geometry f) = geometry f) ->
      run_spatial_analysis land admin "intersects"
      = {[ "intersection_count" := VInt (Z.of_nat (length (rows joined))) ]}).
Proof.
  intros reprojected joined. unfold joined.
  rewrite SpatialQueryMore.join_size. split; [|split].
  - apply run_spatial_analysis_intersects.
  - reflexivity.
  - intros Hsame. rewrite run_spatial_analysis_intersects. unfold reprojected. simpl.
    now rewrite (reproject_unchanged _ _ _ Hsame).
Qed.

End JoinSize.

Lemma filter_hit {X} (p : X -> bool) (l : list X) (y : X) :
  In y l -> p y = true -> (1 <= length (List.filter p l))%nat.
Proof.
  intros Hy Hp. assert (Hin : In y (List.filter p l)) by (apply filter_In; auto).
  destruct (List.filter p l); [contradiction|simpl; lia].
Qed.

Lemma count_at_least {X Y} (p : X * Y -> bool) (l : list X) (l' : list Y) :
  Forall (fun x => exists y, In y l' /\ p (x, y) = true) l ->
  (length l <= length (List.filter p (list_prod l l')))%nat.
Proof.
  induction 1 as [|x t (y & Hy & Hp) _ IH]; simpl.
  - lia.
  - rewrite List.filter_app, length_app, filter_map_pair, length_map.
    pose proof (filter_hit (fun y => p (x, y)) l' y Hy Hp). lia.
Qed.

Lemma Forall2_right {X Y} (R : X -> Y -> Prop) (Q : Y -> Prop) (l1 : list X) (l2 : list Y) :
  Forall2 R l1 l2 -> (forall a b, R a b -> Q b) -> Forall Q l2.
Proof.
  induction 1 as [|a b l1 l2 Hab _ IH]; intros HQ; constructor; eauto.
Qed.

Section WithRandom.
Context {RNG : Type}.
Context (seed : Z -> RNG).
Context (uniform : Q -> Q -> RNG -> Q * RNG).
Context (choice : list string -> RNG -> string * RNG).

Lemma run_data_ingestion_returns (data_path : string) (layer_name : option string) :
  run_data_ingestion seed uniform choice data_path layer_name = inr provinces_gdf.
Proof.
  unfold run_data_ingestion.
  destruct (create_sample_data_rows seed uniform choice) as (land & -> & _).
  reflexivity.
Qed.

Section WithFrames.
Context {G CRS A1 A2 : Type} `{Geometry G CRS}.

Local Abbreviation run := (@run_specific_module RNG seed uniform choice G CRS A1 A2 _).

(** A module run returns in two cases only: [data_ingestion] with a
    [data_path], which gives the sample provinces whatever the path, and
    [spatial_analysis] with both frames. *)
Theorem run_specific_module_returns_iff
    (module_name : string) (kwargs : Kwargs) (result : ModuleResult) :
  run module_name kwargs = inr result
  <-> (module_name = "data_ingestion" /\ is_Some (kw_data_path kwargs)
       /\ result = Ingested provinces_gdf)
      \/ (module_name = "spatial_analysis"
          /\ exists gdf1 gdf2,
               kw_gdf1 kwargs = Some gdf1 /\ kw_gdf2 kwargs = Some gdf2
               /\ result = Analysed (run_spatial_analysis gdf1 gdf2
                                       (default "intersects" (kw_operation kwargs)))).
Proof.
  unfold run_specific_module.
  destruct (String.eqb module_name "data_ingestion") eqn:E1.
  { apply String.eqb_eq in E1. subst module_name.
    destruct (kw_data_path kwargs) as [p|].
    - rewrite run_data_ingestion_returns. split.
      + intros [= <-]. left. eauto.
      + intros [(_ & _ & ->)|(Habs & _)]; [reflexivity|discriminate].
    - split; [discriminate|].
      intros [(_ & [x Hx] & _)|(Habs & _)]; discriminate. }
  destruct (String.eqb module_name "spatial_analysis") eqn:E2.
  { apply String.eqb_eq in E2. subst module_name.
    destruct (kw_gdf1 kwargs) as [g1|], (kw_gdf2 kwargs) as [g2|]; split;
      try discriminate.
    - intros [= <-]. right. split; [reflexivity|]. now exists g1, g2.
    - intros [(Habs & _)|(_ & g1' & g2' & [= <-] & [= <-] & ->)];
        [discriminate|reflexivity].
    - intros [(Habs & _)|(_ & g1' & g2' & _ & Habs & _)]; discriminate.
    - intros [(Habs & _)|(_ & g1' & g2' & Habs & _)]; discriminate.
    - intros [(Habs & _)|(_ & g1' & g2' & Habs & _)]; discriminate. }
  apply String.eqb_neq in E1, E2.
  destruct (String.eqb module_name "network_analysis");
    [|destruct (String.eqb module_name "map_comparison")];
    (split; [discriminate|]);
    intros [(Habs & _)|(Habs & _)]; congruence.
Qed.

(** The two modules [network_analysis] and [map_comparison] end in a
    [NameError] for every set of keyword arguments, and a name outside
    the table ends in a [ValueError] whose text holds the name and the
    four known ones. *)
Theorem run_specific_module_failures (module_name : string) (kwargs : Kwargs) :
  (module_name = "network_analysis" ->
   run module_name kwargs = inl (NameError "run_network_analysis"))
  /\ (module_name = "map_comparison" ->
      run module_name kwargs = inl (NameError "run_map_comparison"))
  /\ (~ In module_name ["data_ingestion"; "spatial_analysis";
                        "network_analysis"; "map_comparison"] ->
      run module_name kwargs
      = inl (Other (ValueError ("Unknown module: " ++ module_name ++ ". Available: "
                                  ++ "['data_ingestion', 'spatial_analysis', "
                                  ++ "'network_analysis', 'map_comparison']")%string))).
Proof.
  split; [|split].
  - intros ->. reflexivity.
  - intros ->. reflexivity.
  - intros Hnot. unfold run_specific_module.
    assert (H1 : String.eqb module_name "data_ingestion" = false)
      by (apply String.eqb_neq; intros ->; apply Hnot; simpl; auto).
    assert (H2 : String.eqb module_name "spatial_analysis" = false)
      by (apply String.eqb_neq; intros ->; apply Hnot; simpl; auto).
    assert (H3 : String.eqb module_name "network_analysis" = false)
      by (apply String.eqb_neq; intros ->; apply Hnot; simpl; auto).
    assert (H4 : String.eqb module_name "map_comparison" = false)
      by (apply String.eqb_neq; intros ->; apply Hnot; simpl; auto).
    now rewrite H1, H2, H3, H4.
Qed.

End WithFrames.

(** With a generator that keeps its promises, counting the intersections
    of the sample land-use layer with the sample provinces finds every one
    of the 48 features at least once, and at most four times. *)
Theorem sample_intersection_count :
  uniform_in_range uniform -> choice_from_list choice ->
  exists land n,
    create_sample_data seed uniform choice = Some (provinces_gdf, land)
    /\ run_spatial_analysis land provinces_gdf "intersects"
       = {[ "intersection_count" := VInt n ]}
    /\ (48 <= n <= 192)%Z.
Proof.
  intros Huniform Hchoice.
  destruct (create_sample_data_rows seed uniform choice) as (land & Hrun & _ & Hrows).
  set (pairs := List.filter
                  (fun p => intersects (CRS := Geographic) (geometry (fst p)) (geometry (snd p)))
                  (list_prod (rows land) (rows provinces_gdf))).
  exists land, (Z.of_nat (length pairs)). split; [exact Hrun|]. split.
  { apply run_spatial_analysis_intersects. }
  assert (Hlen : length (rows land) = 48%nat)
    by (rewrite <- (Forall2_length _ _ _ Hrows); reflexivity).
  split.
  - assert (48 <= length pairs)%nat; [|lia].
    rewrite <- Hlen. apply count_at_least.
    apply (Forall2_right _ _ _ _ Hrows).
    intros slot f Hsampled.
    destruct (sampled_located uniform choice slot f Huniform Hchoice Hsampled)
      as ((r & Hr & _ & Hint) & _).
    now exists r.
  - assert (length pairs <= length (rows land) * length (rows provinces_gdf))%nat.
    { unfold pairs. rewrite <- length_prod. apply List.filter_length_le. }
    rewrite Hlen in *. simpl in *. lia.
Qed.

(** What the script does after parsing: with [--module network_analysis]
    it ends in the [NameError] of the missing runner; with any other
    non-empty [--module], known or not, it runs nothing and ends
    normally; without [--module] it runs the pipeline, which succeeds.
    No command line makes a module run to its end. *)
Theorem main_outcome (args : Namespace) :
  (module args = Some "network_analysis" ->
   main seed uniform choice args = inl (NameError "run_network_analysis"))
  /\ (forall m, module args = Some m -> m <> "" -> m <> "network_analysis" ->
        main seed uniform choice args = inr NothingRan)
  /\ (module args = None \/ module args = Some "" ->
      exists results,
        main seed uniform choice args = inr (PipelineRan results)
        /\ status results = "success"
        /\ output_config results = merge_config (Some (my_config args)))
  /\ main seed uniform choice args <> inr ModuleRan.
Proof.
  assert (Hpipe : exists results,
             main_execution_pipeline (Some (my_config args)) = Ok results
             /\ status results = "success"
             /\ output_config results = merge_config (Some (my_config args))).
  { eexists. split; [apply cli_pipeline_run|]. split; reflexivity. }
  destruct Hpipe as (results & Hrun & Hstatus & Hconfig).
  unfold main. destruct (module args) as [m|]; simpl.
  - destruct (String.eqb m "") eqn:Hempty; simpl.
    + apply String.eqb_eq in Hempty. subst m. rewrite Hrun.
      split; [discriminate|]. split; [congruence|]. split; [eauto|discriminate].
    + destruct (String.eqb m "network_analysis") eqn:Hnet.
      * apply String.eqb_eq in Hnet. subst m.
        destruct (create_sample_data_rows seed uniform choice) as (land & -> & _).
        split; [reflexivity|]. split; [congruence|].
        split; [intros [?|?]; discriminate|discriminate].
      * apply String.eqb_neq in Hnet, Hempty.
        split; [congruence|]. split; [reflexivity|].
        split; [intros [?|[= ?]]; [discriminate|congruence]|discriminate].
  - rewrite Hrun. split; [discriminate|]. split; [discriminate|].
    split; [eauto|discriminate].
Qed.

End WithRandom.

Lemma run_spatial_analysis_counts_witness :
  run_spatial_analysis provinces_gdf provinces_gdf "within"
  = {[ "status" := VStr "analysis_completed" ]}.
Proof.
  destruct (run_spatial_analysis_counts provinces_gdf provinces_gdf) as (_ & _ & Hother).
  apply Hother. discriminate.
Defined.

Lemma sample_intersection_count_witness :
  exists land n,
    create_sample_data counter_seed midpoint first_choice = Some (provinces_gdf, land)
    /\ run_spatial_analysis land provinces_gdf "intersects"
       = {[ "intersection_count" := VInt n ]}
    /\ (48 <= n <= 192)%Z.
Proof.
  apply (sample_intersection_count counter_seed midpoint first_choice).
  - exact midpoint_in_range.
  - exact first_choice_from_list.
Defined.

Lemma intersection_count_is_join_size_witness :
  run_spatial_analysis (forest_parcels 100 50) region_R "intersects"
  = {[ "intersection_count" := VInt 2 ]}.
Proof.
  destruct (intersection_count_is_join_size (forest_parcels 100 50) region_R)
    as (_ & _ & Hsame).
  rewrite Hsame.
  - reflexivity.
  - intros f Hf. reflexivity.
Defined.

Lemma run_specific_module_failures_witness :
  run_specific_module counter_seed midpoint first_choice "report" no_bound_kwargs
  = inl (Other (ValueError ("Unknown module: report. Available: "
                              ++ "['data_ingestion', 'spatial_analysis', "
                              ++ "'network_analysis', 'map_comparison']")%string)).
Proof.
  destruct (run_specific_module_failures counter_seed midpoint first_choice
              (G := Shape) (CRS := Geographic) (A1 := Province) (A2 := Province)
              "report" no_bound_kwargs) as (_ & _ & Hunknown).
  apply Hunknown. simpl. intros [H|[H|[H|[H|[]]]]]; discriminate.
Defined.

Lemma run_specific_module_returns_iff_witness :
  run_specific_module counter_seed midpoint first_choice "data_ingestion"
    {| kw_data_path := Some "data/BATAS_PROVINSI.shp"; kw_layer_name := None;
       kw_gdf1 := @None (GeoDataFrame Shape Geographic Province);
       kw_gdf2 := @None (GeoDataFrame Shape Geographic Province);
       kw_operation := None |}
  = inr (Ingested provinces_gdf).
Proof.
  apply run_specific_module_returns_iff. left.
  split; [reflexivity|]. split; [eexists; reflexivity|reflexivity].
Defined.

Lemma main_outcome_witness :
  main counter_seed midpoint first_choice
    {| module := Some "spatial_analysis"; province := "JK"; sample_data := true |}
  = inr NothingRan.
Proof.
  destruct (main_outcome counter_seed midpoint first_choice
              {| module := Some "spatial_analysis"; province := "JK"; sample_data := true |})
    as (_ & Hother & _).
  apply (Hother "spatial_analysis"); [reflexivity|discriminate|discriminate].
Defined.

End CliFacts.

(** ** Further properties of the similarity score *)

Module MapServiceMore.
Import MapServiceCompar MapServiceFacts.

Section WithOverlay.
Context {G : Type} `{Overlay G}.

Lemma iou_positive_union (a b : G) :
  (0 < overlay_area (union_ a b))%Q ->
  iou a b = Ok (overlay_area (intersection a b) / overlay_area (union_ a b))%Q.
Proof.
  intros Hu. unfold iou. rewrite (proj2 (gt_true_iff _ 0) Hu).
  apply truediv_nonzero. intros Hz. rewrite Hz in Hu. exact (Qlt_irrefl 0 Hu).
Qed.

Lemma iou_no_union (a b : G) :
  (overlay_area (union_ a b) <= 0)%Q -> iou a b = Ok 0%Q.
Proof.
  intros Hu. unfold iou. now rewrite (proj2 (gt_false_iff _ 0) Hu).
Qed.

(** When the intersection is no larger than the union and has no
    negative area, the score lies between 0 and 1. *)
Theorem iou_in_unit_interval (a b : G) :
  (0 <= overlay_area (intersection a b))%Q ->
  (overlay_area (intersection a b) <= overlay_area (union_ a b))%Q ->
  exists score, iou a b = Ok score /\ (0 <= score)%Q /\ (score <= 1)%Q.
Proof.
  intros Hi Hiu. destruct (Qlt_le_dec 0 (overlay_area (union_ a b))) as [Hu|Hu].
  - rewrite (iou_positive_union a b Hu). eexists. split; [reflexivity|]. split.
    + apply Qle_shift_div_l; [exact Hu|]. lra.
    + apply Qle_shift_div_r; [exact Hu|]. lra.
  - rewrite (iou_no_union a b Hu). exists 0%Q. split; [reflexivity|]. lra.
Qed.

(** Geometries whose intersection has the area of their union (a geometry
    of positive area with itself) score 1; geometries whose intersection
    has no area score 0. *)
Theorem iou_extremes (a b : G) :
  ((0 < overlay_area (union_ a b))%Q ->
   (overlay_area (intersection a b) == overlay_area (union_ a b))%Q ->
   exists score, iou a b = Ok score /\ (score == 1)%Q)
  /\ ((overlay_area (intersection a b) == 0)%Q ->
      exists score, iou a b = Ok score /\ (score == 0)%Q).
Proof.
  split.
  - intros Hu Heq. rewrite (iou_positive_union a b Hu). eexists.
    split; [reflexivity|]. rewrite Heq. apply Qmult_inv_r.
    intros Hz. rewrite Hz in Hu. exact (Qlt_irrefl 0 Hu).
  - intros Hz. destruct (Qlt_le_dec 0 (overlay_area (union_ a b))) as [Hu|Hu].
    + rewrite (iou_positive_union a b Hu). eexists. split; [reflexivity|].
      rewrite Hz. unfold Qdiv. apply Qmult_0_l.
    + rewrite (iou_no_union a b Hu). exists 0%Q. split; reflexivity.
Qed.

End WithOverlay.

Import Raster.

Lemma iou_in_unit_interval_witness :
  exists score, iou [(0, 0); (1, 0)]%Z [(1, 0); (2, 0)]%Z = Ok score
                /\ (0 <= score)%Q /\ (score <= 1)%Q.
Proof.
  apply (iou_in_unit_interval [(0, 0); (1, 0)]%Z [(1, 0); (2, 0)]%Z); discriminate.
Defined.

Lemma iou_extremes_witness :
  (exists score, iou [(0, 0); (1, 0)]%Z [(0, 0); (1, 0)]%Z = Ok score /\ (score == 1)%Q)
  /\ (exists score, iou [(0, 0)]%Z [(5, 5)]%Z = Ok score /\ (score == 0)%Q).
Proof.
  split.
  - destruct (iou_extremes [(0, 0); (1, 0)]%Z [(0, 0); (1, 0)]%Z) as (Hsame & _).
    apply Hsame; reflexivity.
  - destruct (iou_extremes [(0, 0)]%Z [(5, 5)]%Z) as (_ & Hdisjoint).
    apply Hdisjoint. reflexivity.
Defined.

End MapServiceMore.

(** ** The overlap analysis on frames as geopandas has them *)

Module GeoFramesFacts.
Import SpatialQueryFacts GeoFrames.

Section WithGeometry.
Context {G CRS : Type} `{Geometry G CRS}.

(** On frames with all the guarantees the two embeddings agree. *)
Lemma analyze_of_typed
    (admin : GeoDataFrame G CRS Admin) (land : GeoDataFrame G CRS LandUse) :
  analyze_polygonal_overlap (of_typed admin) (of_typed land)
  = inr (SpatialQueryAnalysis.analyze_polygonal_overlap admin land).
Proof. destruct admin as [c rs], land as [c' rs']. reflexivity. Qed.

Lemma analyze_well_formed
    (admin : Frame G CRS Admin) (land : Frame G CRS LandUse) (c c' : CRS) :
  active_geometry admin = true -> active_geometry land = true ->
  declared_crs admin = Some c -> declared_crs land = Some c' ->
  has_columns admin = true -> has_columns land = true ->
  analyze_polygonal_overlap admin land
  = inr (SpatialQueryAnalysis.analyze_polygonal_overlap
           {| crs := c; rows := records admin |} {| crs := c'; rows := records land |}).
Proof.
  intros Hga Hgl Hca Hcl Hka Hkl. unfold analyze_polygonal_overlap, get_crs, to_crs.
  rewrite Hga, Hgl, Hca, Hcl, Hka, Hkl. reflexivity.
Qed.

(** C8 (as the code behaves): when both frames have their geometry
    column, a CRS and the columns the analysis groups by, an empty frame
    on either side gives the empty summary and nothing is raised. *)
Theorem analyze_empty_frames
    (admin : Frame G CRS Admin) (land : Frame G CRS LandUse) (c c' : CRS) :
  active_geometry admin = true -> active_geometry land = true ->
  declared_crs admin = Some c -> declared_crs land = Some c' ->
  has_columns admin = true -> has_columns land = true ->
  records admin = [] \/ records land = [] ->
  analyze_polygonal_overlap admin land = inr [].
Proof.
  intros Hga Hgl Hca Hcl Hka Hkl Hempty.
  rewrite (analyze_well_formed admin land c c' Hga Hgl Hca Hcl Hka Hkl).
  f_equal. now apply analyze_empty_collection.
Qed.

(** Without the geometry column of the admin frame the first line fails;
    without the grouped columns the last but one does. *)
Lemma analyze_fails_without_schema
    (admin : Frame G CRS Admin) (land : Frame G CRS LandUse) :
  (active_geometry admin = false ->
   analyze_polygonal_overlap admin land = inl (AttributeError "crs"))
  /\ (forall c c', active_geometry admin = true -> active_geometry land = true ->
        declared_crs admin = Some c -> declared_crs land = Some c' ->
        has_columns admin = false ->
        analyze_polygonal_overlap admin land = inl (Exc (KeyError "province_name"))).
Proof.
  split.
  - intros Hga. unfold analyze_polygonal_overlap, get_crs. now rewrite Hga.
  - intros c c' Hga Hgl Hca Hcl Hka. unfold analyze_polygonal_overlap, get_crs, to_crs.
    now rewrite Hga, Hgl, Hca, Hcl, Hka.
Qed.

End WithGeometry.

Import Planar.

(** C8, counterexample: the two empty frames [gpd.GeoDataFrame()] do not
    give an empty summary; the analysis raises [AttributeError] at
    [gdf_admin.crs]. *)
Lemma empty_frames_raise :
  records (@empty_frame Shape Geographic Admin) = []
  /\ records (@empty_frame Shape Geographic LandUse) = []
  /\ analyze_polygonal_overlap (@empty_frame Shape Geographic Admin) empty_frame
     = inl (AttributeError "crs")
  /\ analyze_polygonal_overlap (@empty_frame Shape Geographic Admin) empty_frame
     <> inr [].
Proof. repeat split. discriminate. Qed.

Lemma analyze_empty_frames_witness :
  analyze_polygonal_overlap no_regions (of_typed urban_point) = inr [].
Proof.
  apply (analyze_empty_frames no_regions (of_typed urban_point) EPSG4326 EPSG4326);
    try reflexivity.
  left. reflexivity.
Defined.

End GeoFramesFacts.
